(** * tockloader/openocd.py: the OpenOCD board interface

    A shallow embedding of [tockloader/openocd.py] and of the parts of the
    Python runtime it relies on, followed by the properties of the flash
    operations, of the command construction and of board resolution.

    Conventions.
    - A Python [str] is a [string] holding its UTF-8 encoding; [bytes] is a
      [list byte].  Every pattern the module searches for or substitutes is
      ASCII, so searching and brace parsing work on that encoding.
    - A Python [int] is a [Z].
    - Dictionaries are [gmap]s keyed by strings.
    - The mutable object [self], the module-level list
      [collect_temp_files] and the observable effects (printing, temporary
      files, child processes, attribute queries) live in one state record that
      is threaded through a state-and-exception monad. *)

From Stdlib Require Import ZArith String Ascii HexString DecimalString.
From Stdlib.Strings Require Import Byte.
From stdpp Require Import base option list gmap strings.

Local Open Scope Z_scope.
Local Open Scope string_scope.

(** ** The Python runtime, as far as this module uses it *)

Module Py.

(** The values that flow through the configuration fields and the device
    attributes: [None], a [str] or an [int]. *)
Inductive pyval : Type :=
| PyNone
| PyStr (s : string)
| PyInt (z : Z).

Inductive exn : Type :=
| KeyError (key : string)
| IndexError (msg : string)
| ValueError (msg : string)
| TypeError (msg : string)
| UnicodeDecodeError
| OSError (msg : string)
| Unmodelled (construct : string)
| TockLoaderException (msg : string).

Definition truthy (v : pyval) : bool :=
  match v with
  | PyNone => false
  | PyStr s => negb (String.eqb s EmptyString)
  | PyInt z => negb (z =? 0)%Z
  end.

(** [a == b] on these values. *)
Definition py_eq (a b : pyval) : bool :=
  match a, b with
  | PyNone, PyNone => true
  | PyStr s, PyStr t => String.eqb s t
  | PyInt x, PyInt y => (x =? y)%Z
  | _, _ => false
  end.

(** [v > 0]: ordering an [int] with a [str] or with [None] is a
    [TypeError]. *)
Definition py_gt0 (v : pyval) : exn + bool :=
  match v with
  | PyInt z => inr (0 <? z)%Z
  | PyStr _ => inl (TypeError "'>' not supported between instances of 'str' and 'int'")
  | PyNone => inl (TypeError "'>' not supported between instances of 'NoneType' and 'int'")
  end.

(** [str(z)] *)
Definition dec (z : Z) : string := NilZero.string_of_int (Z.to_int z).

(** [format(z, '#x')]: [0x0], [0xff], [-0xff]. *)
Definition hex_alt (z : Z) : string := HexString.of_Z z.

(** [format(z, 'x')] *)
Definition hex (z : Z) : string :=
  match z with
  | Z0 => "0"
  | Zpos p => HexString.Raw.of_pos p EmptyString
  | Zneg p => String "-" (HexString.Raw.of_pos p EmptyString)
  end.

Definition py_str (v : pyval) : string :=
  match v with
  | PyNone => "None"
  | PyStr s => s
  | PyInt z => dec z
  end.

(** [pat in s] for two [str]. *)
Fixpoint contains (pat s : string) : bool :=
  String.prefix pat s ||
  match s with
  | EmptyString => false
  | String _ s' => contains pat s'
  end.

(** [x in l] for a list of [str]. *)
Definition in_list (x : string) (l : list string) : bool :=
  existsb (String.eqb x) l.

(** [s.replace(c, by)] for a one-character [c]. *)
Fixpoint replace_char (c : ascii) (by_ : string) (s : string) : string :=
  match s with
  | EmptyString => EmptyString
  | String a s' =>
      if Ascii.eqb a c then by_ +:+ replace_char c by_ s'
      else String a (replace_char c by_ s')
  end.

(** *** [str.format] with keyword arguments

    The fragment modelled: literal text with the escapes [{{] and [}}],
    and replacement fields [{name}] and [{name:spec}], where [spec] is
    empty, [d], [x] or [#x] for an [int] and empty or [s] for a [str].
    That covers every template of this module and of the board catalog's
    command overrides.  Attribute and index access, conversions ([!r]),
    nested fields and the rest of the format-spec language are valid
    Python that is not modelled: such a template yields [Unmodelled], which
    says nothing of what Python does with it.  Field names are taken to be
    ASCII. *)

Definition kwargs : Type := list (string * pyval).

Fixpoint kw_lookup (k : string) (kw : kwargs) : option pyval :=
  match kw with
  | [] => None
  | (k', v) :: kw' => if String.eqb k k' then Some v else kw_lookup k kw'
  end.

Definition is_digit (c : ascii) : bool :=
  let n := N_of_ascii c in ((48 <=? n) && (n <=? 57))%N.

Fixpoint all_chars (f : ascii -> bool) (s : string) : bool :=
  match s with
  | EmptyString => true
  | String c s' => f c && all_chars f s'
  end.

Definition format_value (v : pyval) (spec : string) : exn + string :=
  match v with
  | PyInt z =>
      if String.eqb spec EmptyString || String.eqb spec "d" then inr (dec z)
      else if String.eqb spec "x" then inr (hex z)
      else if String.eqb spec "#x" then inr (hex_alt z)
      else if String.eqb spec "s"
      then inl (ValueError "Unknown format code 's' for object of type 'int'")
      else inl (Unmodelled spec)
  | PyStr s =>
      if String.eqb spec EmptyString || String.eqb spec "s" then inr s
      else if String.eqb spec "d"
      then inl (ValueError "Unknown format code 'd' for object of type 'str'")
      else if String.eqb spec "x" || String.eqb spec "#x"
      then inl (ValueError "Unknown format code 'x' for object of type 'str'")
      else inl (Unmodelled spec)
  | PyNone =>
      if String.eqb spec EmptyString then inr "None"
      else inl (TypeError "unsupported format string passed to NoneType.__format__")
  end.

(** The number a string of decimal digits stands for; 0 for the empty
    string. *)
Fixpoint index_value (acc : Z) (digits : string) : Z :=
  match digits with
  | EmptyString => acc
  | String c rest =>
      index_value (10 * acc + Z.of_N (N_of_ascii c) - 48)%Z rest
  end.

(** The argument a field name selects.  With keyword arguments only, an
    empty or numeric name indexes the empty tuple of positional ones; an
    index beyond the largest [Py_ssize_t] of a 64-bit build is refused
    first. *)
Definition get_field (name : string) (kw : kwargs) : exn + pyval :=
  if all_chars is_digit name
  then
    if (9223372036854775807 <? index_value 0 name)%Z
    then inl (ValueError "Too many decimal digits in format string")
    else inl (IndexError ("Replacement index " +:+ dec (index_value 0 name)
                          +:+ " out of range for positional args tuple"))
  else if contains "." name || contains "[" name
  then inl (Unmodelled name)
  else match kw_lookup name kw with
       | Some v => inr v
       | None => inl (KeyError name)
       end.

Definition format_field (name spec : string) (kw : kwargs) : exn + string :=
  match get_field name kw with
  | inl e => inl e
  | inr v => format_value v spec
  end.

Inductive fstate : Type :=
| InText
| InName (name : string)
| InSpec (name spec : string).

Definition snoc (s : string) (c : ascii) : string := s +:+ String c EmptyString.

Definition emit (s : string) (rest : exn + string) : exn + string :=
  match rest with
  | inl e => inl e
  | inr r => inr (s +:+ r)
  end.

(** A field's error comes before any error of the text after it. *)
Definition emit_field (f : exn + string) (rest : exn + string) : exn + string :=
  match f with
  | inl e => inl e
  | inr s => emit s rest
  end.

Fixpoint format_from (kw : kwargs) (st : fstate) (t : string) : exn + string :=
  match t with
  | EmptyString =>
      match st with
      | InText => inr EmptyString
      | InName _ => inl (ValueError "expected '}' before end of string")
      | InSpec _ _ => inl (ValueError "unmatched '{' in format spec")
      end
  | String c t' =>
      match st with
      | InText =>
          if Ascii.eqb c "{" then
            match t' with
            | EmptyString => inl (ValueError "Single '{' encountered in format string")
            | String c' t'' =>
                if Ascii.eqb c' "{" then emit "{" (format_from kw InText t'')
                else format_from kw (InName EmptyString) t'
            end
          else if Ascii.eqb c "}" then
            match t' with
            | EmptyString => inl (ValueError "Single '}' encountered in format string")
            | String c' t'' =>
                if Ascii.eqb c' "}" then emit "}" (format_from kw InText t'')
                else inl (ValueError "Single '}' encountered in format string")
            end
          else emit (String c EmptyString) (format_from kw InText t')
      | InName name =>
          if Ascii.eqb c "}" then
            emit_field (format_field name EmptyString kw) (format_from kw InText t')
          else if Ascii.eqb c ":" then format_from kw (InSpec name EmptyString) t'
          else if Ascii.eqb c "." || Ascii.eqb c "["
          then inl (Unmodelled "attribute or index access")
          else if Ascii.eqb c "{" then inl (ValueError "unexpected '{' in field name")
          else if Ascii.eqb c "!" then inl (Unmodelled "conversion")
          else format_from kw (InName (snoc name c)) t'
      | InSpec name spec =>
          if Ascii.eqb c "}" then
            emit_field (format_field name spec kw) (format_from kw InText t')
          else if Ascii.eqb c "{" then inl (Unmodelled "nested replacement field")
          else format_from kw (InSpec name (snoc spec c)) t'
      end
  end.

(** [template.format] applied to the keyword arguments [kw]. *)
Definition format (template : string) (kw : kwargs) : exn + string :=
  format_from kw InText template.

(** *** [bytes.decode('utf-8')]

    Strict decoding accepts exactly the well-formed byte sequences of the
    Unicode standard (no overlong forms, no surrogates, nothing above
    U+10FFFF).  With a [str] held as its UTF-8 encoding, decoding returns
    the bytes themselves. *)

Definition between (lo hi : N) (b : byte) : bool :=
  let n := Byte.to_N b in ((lo <=? n) && (n <=? hi))%N.

Definition cont (b : byte) : bool := between 128 191 b.

Fixpoint utf8_valid (bs : list byte) : bool :=
  match bs with
  | [] => true
  | b0 :: r0 =>
      if between 0 127 b0 then utf8_valid r0
      else
        match r0 with
        | [] => false
        | b1 :: r1 =>
            if between 194 223 b0 then cont b1 && utf8_valid r1
            else
              match r1 with
              | [] => false
              | b2 :: r2 =>
                  if between 224 224 b0 then between 160 191 b1 && cont b2 && utf8_valid r2
                  else if between 225 236 b0 || between 238 239 b0
                  then cont b1 && cont b2 && utf8_valid r2
                  else if between 237 237 b0 then between 128 159 b1 && cont b2 && utf8_valid r2
                  else
                    match r2 with
                    | [] => false
                    | b3 :: r3 =>
                        if between 240 240 b0
                        then between 144 191 b1 && cont b2 && cont b3 && utf8_valid r3
                        else if between 241 243 b0
                        then cont b1 && cont b2 && cont b3 && utf8_valid r3
                        else if between 244 244 b0
                        then between 128 143 b1 && cont b2 && cont b3 && utf8_valid r3
                        else false
                    end
              end
        end
  end.

Definition decode_utf8 (bs : list byte) : exn + string :=
  if utf8_valid bs then inr (string_of_list_byte bs) else inl UnicodeDecodeError.

(** [b[0:stop]] for a sequence [b]: a negative [stop] counts from the
    end. *)
Definition slice_to {A : Type} (b : list A) (stop : Z) : list A :=
  if (stop <? 0)%Z then take (Z.to_nat (Z.of_nat (length b) + stop)) b
  else take (Z.to_nat stop) b.

End Py.

Import Py.

(** ** The module's data *)

(** What [subprocess.run] returns. *)
Record CompletedProcess : Type := {
  returncode : Z;
  stdout : list byte;
  stderr : list byte
}.

(** One record of [get_all_attributes()]; the sequence holds [None] where a
    slot of the device is empty. *)
Record Attribute : Type := {
  attr_key : string;
  attr_value : pyval
}.

(** An entry of [KNOWN_BOARDS]: the keys [arch], [openocd] and [page_size],
    and the optional keys [openocd_options], [openocd_prefix] and
    [openocd_commands]. *)
Record BoardEntry : Type := {
  entry_arch : pyval;
  entry_openocd : pyval;
  entry_page_size : pyval;
  entry_openocd_options : option (list string);
  entry_openocd_prefix : option pyval;
  entry_openocd_commands : option (gmap string string)
}.

(** The attributes of [self] the module reads and writes; [debug] is
    [self.args.debug]. *)
Record OpenOCD : Type := {
  debug : bool;
  board : pyval;
  arch : pyval;
  openocd_board : pyval;
  openocd_options : list string;
  openocd_prefix : pyval;
  openocd_commands : gmap string string;
  page_size : pyval;
  KNOWN_BOARDS : gmap string BoardEntry
}.

(** The outcome of running the child process: what [subprocess.run] raises or
    returns, and the contents of the staging file afterwards, as the handle
    that is still open reads them from offset 0. *)
Record ProcessRun : Type := {
  outcome : exn + CompletedProcess;
  staged_after : list byte
}.

(** The world outside the module.  [subprocess_run] receives the command line
    handed to [shlex.split] and the contents of the staging file ([None] when
    there is none); it stands for tokenisation and execution together.
    [temp_name n] is the name the system gives the temporary file created
    after [n] others. *)
Record Env : Type := {
  platform_system : string;
  temp_name : nat -> string;
  subprocess_run : string -> option (list byte) -> ProcessRun;
  get_all_attributes : exn + list (option Attribute)
}.

(** The state the module's methods run in: [self], the module's global
    [collect_temp_files], and a record of the effects so far: the lines
    printed, the temporary files created (name and [delete] flag), the child
    processes run (command line and contents of the staging file, if any) and
    the number of calls of [get_all_attributes]. *)
Record State : Type := {
  self : OpenOCD;
  collect_temp_files : list string;
  printed : list string;
  temp_files : list (string * bool);
  processes : list (string * option (list byte));
  attribute_queries : nat
}.

(** ** A state-and-exception monad *)

Definition M (A : Type) : Type := State -> (exn + A) * State.

Definition ret {A : Type} (a : A) : M A := fun s => (inr a, s).

Definition raise {A : Type} (e : exn) : M A := fun s => (inl e, s).

Definition bind {A B : Type} (m : M A) (k : A -> M B) : M B :=
  fun s =>
    match m s with
    | (inl e, s') => (inl e, s')
    | (inr a, s') => k a s'
    end.

Definition lift {A : Type} (r : exn + A) : M A :=
  match r with
  | inl e => raise e
  | inr a => ret a
  end.

Notation "x <~ m ;; k" := (bind m (fun x => k))
  (at level 100, m at next level, right associativity).
Notation "m1 ;;; m2" := (bind m1 (fun _ => m2))
  (at level 100, right associativity).

Definition get_self : M OpenOCD := fun s => (inr (self s), s).

Definition modify (f : State -> State) : M unit := fun s => (inr tt, f s).

Definition with_self (o : OpenOCD) (s : State) : State :=
  {| self := o;
     collect_temp_files := collect_temp_files s;
     printed := printed s;
     temp_files := temp_files s;
     processes := processes s;
     attribute_queries := attribute_queries s |}.

Definition add_printed (msg : string) (s : State) : State :=
  {| self := self s;
     collect_temp_files := collect_temp_files s;
     printed := printed s ++ [msg];
     temp_files := temp_files s;
     processes := processes s;
     attribute_queries := attribute_queries s |}.

Definition add_temp_file (name : string) (delete : bool) (s : State) : State :=
  {| self := self s;
     collect_temp_files := collect_temp_files s;
     printed := printed s;
     temp_files := temp_files s ++ [(name, delete)];
     processes := processes s;
     attribute_queries := attribute_queries s |}.

Definition add_collected (name : string) (s : State) : State :=
  {| self := self s;
     collect_temp_files := collect_temp_files s ++ [name];
     printed := printed s;
     temp_files := temp_files s;
     processes := processes s;
     attribute_queries := attribute_queries s |}.

Definition add_process (command : string) (staged : option (list byte)) (s : State)
  : State :=
  {| self := self s;
     collect_temp_files := collect_temp_files s;
     printed := printed s;
     temp_files := temp_files s;
     processes := processes s ++ [(command, staged)];
     attribute_queries := attribute_queries s |}.

Definition add_attribute_query (s : State) : State :=
  {| self := self s;
     collect_temp_files := collect_temp_files s;
     printed := printed s;
     temp_files := temp_files s;
     processes := processes s;
     attribute_queries := S (attribute_queries s) |}.

Definition put_self (o : OpenOCD) : M unit := modify (with_self o).

(** [print(msg)] *)
Definition print (msg : string) : M unit := modify (add_printed msg).

(** [tempfile.NamedTemporaryFile(mode='w+b', suffix='.bin', delete=delete)];
    the result is the file's name. *)
Definition NamedTemporaryFile (env : Env) (delete : bool) : M string :=
  fun s =>
    let name := temp_name env (length (temp_files s)) in
    (inr name, add_temp_file name delete s).

(** [collect_temp_files += [name]] *)
Definition collect (name : string) : M unit := modify (add_collected name).

(** [subprocess.run(shlex.split(command), stdout=PIPE, stderr=PIPE)] *)
Definition run_process (env : Env) (command : string) (staged : option (list byte))
  : M ProcessRun :=
  fun s => (inr (subprocess_run env command staged), add_process command staged s).

(** Modelled from the spec: [self.get_all_attributes()], a method of the
    base class that is not in this module.  The specification takes it as
    an external collaborator that yields an ordered sequence of key/value
    records, or raises; what it does on the way to them (it reads the
    device) is outside this model, which only counts the call. *)
Definition query_attributes (env : Env) : M (list (option Attribute)) :=
  fun s => (get_all_attributes env, add_attribute_query s).

(** ** [class OpenOCD] *)

(** The double-quote character, for the command line's quoting. *)
Definition dquote : string := String (ascii_of_nat 34) EmptyString.

(** A [bytes] object or [None] used as a condition. *)
Definition bytes_truthy (b : option (list byte)) : bool :=
  match b with
  | Some (_ :: _) => true
  | _ => false
  end.

Definition board_config_not_found : exn :=
  TockLoaderException
    "ERROR: Cannot find the board configuration file. You may need to update OpenOCD to the version in latest git master.".

Definition external_tool_failure : exn := TockLoaderException "openocd error".

Definition hardware_not_connected : exn :=
  TockLoaderException "ERROR: Cannot find hardware. Is USB attached?".

Definition board_undetermined : exn :=
  TockLoaderException
    "Could not determine the current board or arch or openocd board name".

(** Lines 59 and 65-68: the [prefix] clause. *)
Definition prefix_clause (o : OpenOCD) : pyval :=
  let prefix := PyStr EmptyString in
  let prefix :=
    if in_list "workareazero" (openocd_options o)
    then PyStr "set WORKAREASIZE 0;" else prefix in
  if truthy (openocd_prefix o) then openocd_prefix o else prefix.

(** Lines 60 and 69-70: the [source] clause. *)
Definition source_clause (o : OpenOCD) : exn + string :=
  match format "source [find board/{board}];" [("board", openocd_board o)] with
  | inl e => inl e
  | inr source => inr (if py_eq (openocd_board o) PyNone then EmptyString else source)
  end.

(** Lines 61 and 71-74: the [cmd_prefix] clause. *)
Definition cmd_prefix_clause (o : OpenOCD) : string :=
  let cmd_prefix := "init; reset init; halt;" in
  let cmd_prefix :=
    if in_list "noreset" (openocd_options o) then "init; halt;" else cmd_prefix in
  if in_list "nocmdprefix" (openocd_options o) then EmptyString else cmd_prefix.

(** Lines 62 and 75-76: the [cmd_suffix] clause. *)
Definition cmd_suffix_clause (o : OpenOCD) : string :=
  if in_list "resume" (openocd_options o) then "soft_reset_halt; resume;"
  else EmptyString.

(** Lines 78-79: the command line. *)
Definition openocd_command (o : OpenOCD) (commands : string) : exn + string :=
  match source_clause o with
  | inl e => inl e
  | inr source =>
      format
        ("openocd -c " +:+ dquote +:+
         "{prefix} {source} {cmd_prefix} {cmd} {cmd_suffix} exit" +:+ dquote)
        [("prefix", prefix_clause o); ("source", PyStr source);
         ("cmd_prefix", PyStr (cmd_prefix_clause o)); ("cmd", PyStr commands);
         ("cmd_suffix", PyStr (cmd_suffix_clause o))]
  end.

(** Lines 84-91: the closure [print_output]. *)
Definition print_output (p : CompletedProcess) : M string :=
  let response := EmptyString in
  response <~
    match stdout p with
    | [] => ret response
    | _ :: _ => text <~ lift (decode_utf8 (stdout p)) ;; ret (response +:+ text)
    end ;;
  response <~
    match stderr p with
    | [] => ret response
    | _ :: _ => text <~ lift (decode_utf8 (stderr p)) ;; ret (response +:+ text)
    end ;;
  print response ;;;
  ret response.

(** Lines 38-53: staging.  The result is the command with the file's name
    substituted and the contents of the staging file, or the command as it
    was and [None] when no file is staged. *)
Definition stage (env : Env) (commands : string) (binary : option (list byte))
    (write : bool) : M (string * option (list byte)) :=
  o <~ get_self ;;
  let delete := negb (String.eqb (platform_system env) "Windows") in
  let delete := if debug o then false else delete in
  if bytes_truthy binary || negb write then
    name <~ NamedTemporaryFile env delete ;;
    let content := if write then default [] binary else [] in
    name <~
      (if String.eqb (platform_system env) "Windows" then
         let name := replace_char "\" "\\\" name in
         collect name ;;;
         ret name
       else ret name) ;;
    commands <~ lift (format commands [("binary", PyStr name)]) ;;
    ret (commands, Some content)
  else ret (commands, None).

(** Lines 93-112: what follows the child process.  The result is what
    [temp_bin.read()] gives when reading, and [None] otherwise. *)
Definition check_process (o : OpenOCD) (run : ProcessRun) (write : bool)
  : M (option (list byte)) :=
  p <~ lift (outcome run) ;;
  (if negb (returncode p =? 0)%Z then
     print ("ERROR: openocd returned with error code " +:+ dec (returncode p)) ;;;
     out <~ print_output p ;;
     if contains "Can't find board/" out
     then raise board_config_not_found
     else raise external_tool_failure
   else if debug o then (print_output p ;;; ret tt)
   else ret tt) ;;;
  text <~ lift (decode_utf8 (stdout p)) ;;
  if contains "Error: No J-Link device found." text
  then raise hardware_not_connected
  else if negb write then ret (Some (staged_after run))
  else ret None.

Definition _run_openocd_commands (env : Env) (commands : string)
    (binary : option (list byte)) (write : bool) : M (option (list byte)) :=
  o <~ get_self ;;
  staged <~ stage env commands binary write ;;
  command <~ lift (openocd_command o (fst staged)) ;;
  (if debug o then print ("Running " +:+ dquote +:+ command +:+ dquote +:+ ".")
   else ret tt) ;;;
  run <~ run_process env command (snd staged) ;;
  check_process o run write.

Definition flash_binary (env : Env) (address : Z) (binary : option (list byte))
  : M unit :=
  o <~ get_self ;;
  let command := "program {{binary}} verify {address:#x};" in
  let command := default command (openocd_commands o !! "program") in
  command <~ lift (format command [("address", PyInt address)]) ;;
  _run_openocd_commands env command binary true ;;;
  ret tt.

Definition read_range (env : Env) (address length : Z) : M (list byte) :=
  o <~ get_self ;;
  let command := "dump_image {{binary}} {address:#x} {length};" in
  let command := default command (openocd_commands o !! "read") in
  command <~
    lift (format command [("address", PyInt address); ("length", PyInt length)]) ;;
  let read := [] in
  result <~ _run_openocd_commands env command None false ;;
  let read := if bytes_truthy result then (read ++ default [] result)%list else read in
  let read :=
    if (length <? Z.of_nat (List.length read))%Z then slice_to read length
    else read in
  ret read.

(** In the debug message, the spec [#0x] is the alternate form with the zero
    flag and no width, which prints as [#x] does. *)
Definition erase_page (env : Env) (address : Z) : M unit :=
  o <~ get_self ;;
  (if debug o then print ("Erasing page at address " +:+ hex_alt address)
   else ret tt) ;;;
  command <~ lift (format "flash fillb {address:#x} 0xff 512;" [("address", PyInt address)]) ;;
  let command := default command (openocd_commands o !! "erase") in
  command <~ lift (format command [("address", PyInt address)]) ;;
  _run_openocd_commands env command None true ;;;
  ret tt.

(** *** [determine_current_board] *)

(** Line 173. *)
Definition already_set (o : OpenOCD) : exn + bool :=
  if truthy (board o) && truthy (arch o) && truthy (openocd_board o)
  then py_gt0 (page_size o)
  else inr false.

(** Line 178: [self.board and self.board in self.KNOWN_BOARDS], with the
    entry found.  The catalog's keys are [str]. *)
Definition known_board (o : OpenOCD) : option BoardEntry :=
  if truthy (board o) then
    match board o with
    | PyStr name => KNOWN_BOARDS o !! name
    | _ => None
    end
  else None.

(** Lines 181-189. *)
Definition use_known_board (e : BoardEntry) (o : OpenOCD) : OpenOCD :=
  {| debug := debug o;
     board := board o;
     arch := entry_arch e;
     openocd_board := entry_openocd e;
     openocd_options := default (openocd_options o) (entry_openocd_options e);
     openocd_prefix := default (openocd_prefix o) (entry_openocd_prefix e);
     openocd_commands := default (openocd_commands o) (entry_openocd_commands e);
     page_size := entry_page_size e;
     KNOWN_BOARDS := KNOWN_BOARDS o |}.

Definition set_board (v : pyval) (o : OpenOCD) : OpenOCD :=
  {| debug := debug o; board := v; arch := arch o;
     openocd_board := openocd_board o; openocd_options := openocd_options o;
     openocd_prefix := openocd_prefix o; openocd_commands := openocd_commands o;
     page_size := page_size o; KNOWN_BOARDS := KNOWN_BOARDS o |}.

Definition set_arch (v : pyval) (o : OpenOCD) : OpenOCD :=
  {| debug := debug o; board := board o; arch := v;
     openocd_board := openocd_board o; openocd_options := openocd_options o;
     openocd_prefix := openocd_prefix o; openocd_commands := openocd_commands o;
     page_size := page_size o; KNOWN_BOARDS := KNOWN_BOARDS o |}.

Definition set_openocd_board (v : pyval) (o : OpenOCD) : OpenOCD :=
  {| debug := debug o; board := board o; arch := arch o;
     openocd_board := v; openocd_options := openocd_options o;
     openocd_prefix := openocd_prefix o; openocd_commands := openocd_commands o;
     page_size := page_size o; KNOWN_BOARDS := KNOWN_BOARDS o |}.

Definition set_page_size (v : pyval) (o : OpenOCD) : OpenOCD :=
  {| debug := debug o; board := board o; arch := arch o;
     openocd_board := openocd_board o; openocd_options := openocd_options o;
     openocd_prefix := openocd_prefix o; openocd_commands := openocd_commands o;
     page_size := v; KNOWN_BOARDS := KNOWN_BOARDS o |}.

(** [attribute and attribute['key'] == k] *)
Definition has_key (attribute : option Attribute) (k : string) : bool :=
  match attribute with
  | Some a => String.eqb (attr_key a) k
  | None => false
  end.

Definition value_of (attribute : option Attribute) : pyval :=
  match attribute with
  | Some a => attr_value a
  | None => PyNone
  end.

(** Lines 195-202: the body of the loop, for one attribute. *)
Definition scan_attribute (o : OpenOCD) (attribute : option Attribute) : OpenOCD :=
  let o :=
    if has_key attribute "board" && py_eq (board o) PyNone
    then set_board (value_of attribute) o else o in
  let o :=
    if has_key attribute "arch" && py_eq (arch o) PyNone
    then set_arch (value_of attribute) o else o in
  let o :=
    if has_key attribute "openocd"
    then set_openocd_board (value_of attribute) o else o in
  let o :=
    if has_key attribute "pagesize" && py_eq (page_size o) (PyInt 0)
    then set_page_size (value_of attribute) o else o in
  o.

(** Lines 194-202: the loop. *)
Definition scan_attributes (attributes : list (option Attribute)) (o : OpenOCD)
  : OpenOCD :=
  fold_left scan_attribute attributes o.

(** Line 205. *)
Definition undetermined (o : OpenOCD) : bool :=
  py_eq (board o) PyNone || py_eq (arch o) PyNone
  || py_eq (openocd_board o) (PyStr "cortex-m0") || py_eq (page_size o) (PyInt 0).

Definition determine_current_board (env : Env) : M unit :=
  o <~ get_self ;;
  done <~ lift (already_set o) ;;
  if (done : bool) then ret tt
  else
    match known_board o with
    | Some entry =>
        print ("Using known arch and jtag-device for known board " +:+ py_str (board o)) ;;;
        put_self (use_known_board entry o)
    | None =>
        attributes <~ query_attributes env ;;
        let o := scan_attributes attributes o in
        put_self o ;;;
        if undetermined o then raise board_undetermined else ret tt
    end.

(** ** The command line, clause by clause *)

(** The text of the [source] clause. *)
Definition source_text (o : OpenOCD) : string :=
  if py_eq (openocd_board o) PyNone then EmptyString
  else "source [find board/" +:+ py_str (openocd_board o) +:+ "];".

(** The command line built from its five clauses. *)
Definition command_line (prefix source cmd_prefix cmd cmd_suffix : string) : string :=
  "openocd -c " +:+ dquote +:+ prefix +:+ " " +:+ source +:+ " " +:+ cmd_prefix
  +:+ " " +:+ cmd +:+ " " +:+ cmd_suffix +:+ " exit" +:+ dquote.

(** The command line of [self] around an operation command. *)
Definition command_line_of (o : OpenOCD) (cmd : string) : string :=
  command_line (py_str (prefix_clause o)) (source_text o) (cmd_prefix_clause o)
    cmd (cmd_suffix_clause o).

(** Two states that differ at most in what was printed. *)
Definition same_but_printed (s s' : State) : Prop :=
  self s' = self s /\ collect_temp_files s' = collect_temp_files s /\
  temp_files s' = temp_files s /\ processes s' = processes s /\
  attribute_queries s' = attribute_queries s.

(** The name substituted for [{binary}] when a file is staged in state [s]:
    the name of the new temporary file, with every backslash tripled on
    Windows. *)
Definition staged_name (env : Env) (s : State) : string :=
  let name := temp_name env (length (temp_files s)) in
  if String.eqb (platform_system env) "Windows"
  then replace_char "\" "\\\" name else name.

(** A character that is no brace. *)
Definition plain (c : ascii) : bool :=
  negb (Ascii.eqb c "{") && negb (Ascii.eqb c "}").

(** The text of a captured stream that decodes. *)
Definition text_of (bs : list byte) : string := string_of_list_byte bs.

(** The child process ran to its end with status 0 and its output raises
    nothing on the way to the result: the captured stdout decodes and has no
    report of missing hardware, and in debug mode, where both streams are
    printed, stderr decodes too. *)
Definition clean_exit (o : OpenOCD) (run : ProcessRun) : Prop :=
  exists p,
    outcome run = inr p /\ returncode p = 0 /\
    utf8_valid (stdout p) = true /\
    contains "Error: No J-Link device found." (text_of (stdout p)) = false /\
    (debug o = true -> utf8_valid (stderr p) = true).

(** ** Scenarios *)

(** A fresh state around an object. *)
Definition initial (o : OpenOCD) : State :=
  {| self := o;
     collect_temp_files := [];
     printed := [];
     temp_files := [];
     processes := [];
     attribute_queries := 0 |}.

(** The catalog entry of the board [hail]. *)
Definition hail_entry : BoardEntry :=
  {| entry_arch := PyStr "cortex-m4";
     entry_openocd := PyStr "hail.cfg";
     entry_page_size := PyInt 512;
     entry_openocd_options := None;
     entry_openocd_prefix := None;
     entry_openocd_commands := None |}.

(** An object with no configuration but the catalog. *)
Definition unconfigured : OpenOCD :=
  {| debug := false;
     board := PyNone;
     arch := PyNone;
     openocd_board := PyNone;
     openocd_options := [];
     openocd_prefix := PyStr EmptyString;
     openocd_commands := ∅;
     page_size := PyInt 0;
     KNOWN_BOARDS := {[ "hail" := hail_entry ]} |}.

(** A world on Linux whose child processes all end as [run] and whose device
    answers [attributes]. *)
Definition world (run : ProcessRun) (attributes : exn + list (option Attribute))
  : Env :=
  {| platform_system := "Linux";
     temp_name := fun n => "/tmp/tmp" +:+ dec (Z.of_nat n) +:+ ".bin";
     subprocess_run := fun _ _ => run;
     get_all_attributes := attributes |}.

(** A child process that ends with the given status and output and leaves
    [staged] in the staging file. *)
Definition exits (status : Z) (out err : string) (staged : list byte) : ProcessRun :=
  {| outcome :=
       inr {| returncode := status;
              stdout := list_byte_of_string out;
              stderr := list_byte_of_string err |};
     staged_after := staged |}.

(** A device that describes itself, with [cortex-m0] as its probe-tool
    board name. *)
Definition cortex_m0_attributes : list (option Attribute) :=
  [ Some {| attr_key := "board"; attr_value := PyStr "nrf51dk" |};
    None;
    Some {| attr_key := "arch"; attr_value := PyStr "cortex-m0" |};
    Some {| attr_key := "openocd"; attr_value := PyStr "cortex-m0" |};
    Some {| attr_key := "pagesize"; attr_value := PyInt 1024 |} ].

(** The caller's configuration [{board: "hail"}]. *)
Definition hail_by_name : OpenOCD := set_board (PyStr "hail") unconfigured.

(** A caller's configuration that names the board [hail] and sets the
    architecture, the probe-tool board name and the page size itself. *)
Definition hail_preset : OpenOCD :=
  set_page_size (PyInt 1024)
    (set_openocd_board (PyStr "custom.cfg")
       (set_arch (PyStr "cortex-m0") hail_by_name)).

(** The attribute record [pagesize = v]. *)
Definition pagesize (v : pyval) : option Attribute :=
  Some {| attr_key := "pagesize"; attr_value := v |}.

(** The attribute record [pagesize = 0]. *)
Definition pagesize_zero : option Attribute := pagesize (PyInt 0).

(** ** Measures for the further properties *)

(** The escaping of lines 46-47, as its comment states it: in the second
    string each backslash of the first stands three times, in its place,
    and every other character once. *)
Inductive tripled : string -> string -> Prop :=
| tripled_end : tripled EmptyString EmptyString
| tripled_backslash (s t : string) :
    tripled s t -> tripled (String "\" s) (String "\" (String "\" (String "\" t)))
| tripled_other (c : ascii) (s t : string) :
    c <> "\"%char -> tripled s t -> tripled (String c s) (String c t).

(** Whether a file is staged: the condition of line 38. *)
Definition stages (binary : option (list byte)) (write : bool) : bool :=
  bytes_truthy binary || negb write.

(** The [delete] flag of lines 34-36. *)
Definition delete_flag (env : Env) (o : OpenOCD) : bool :=
  negb (String.eqb (platform_system env) "Windows") && negb (debug o).

(** A record the scan looks at: one that is there and has one of the four
    keys. *)
Definition relevant (attribute : option Attribute) : bool :=
  has_key attribute "board" || has_key attribute "arch"
  || has_key attribute "openocd" || has_key attribute "pagesize".

(** The attribute record [key = v]. *)
Definition record (k : string) (v : pyval) : option Attribute :=
  Some {| attr_key := k; attr_value := v |}.

(** A world on Windows, with one name for every temporary file. *)
Definition windows_world (name : string) (run : ProcessRun) : Env :=
  {| platform_system := "Windows";
     temp_name := fun _ => name;
     subprocess_run := fun _ _ => run;
     get_all_attributes := inr [] |}.

(** An object in debug mode. *)
Definition debugging : OpenOCD :=
  {| debug := true;
     board := PyNone;
     arch := PyNone;
     openocd_board := PyStr "hail.cfg";
     openocd_options := ["resume"];
     openocd_prefix := PyNone;
     openocd_commands := ∅;
     page_size := PyInt 0;
     KNOWN_BOARDS := ∅ |}.




(** From [s] to [s']: [self] and the count of attribute queries are as they
    were, at most one child process was run and at most one temporary file
    created. *)
Definition one_run_at_most (s s' : State) : Prop :=
  self s' = self s
  /\ attribute_queries s' = attribute_queries s
  /\ (processes s' = processes s
      \/ exists command staged, processes s' = (processes s ++ [(command, staged)])%list)
  /\ (temp_files s' = temp_files s
      \/ exists name delete, temp_files s' = (temp_files s ++ [(name, delete)])%list).

(** The default command of [erase_page], after its first formatting. *)
Definition fill_command (address : Z) : string :=
  "flash fillb " +:+ hex_alt address +:+ " 0xff 512;".

(** A device that names the board [hail] and no probe-tool board. *)
Definition hail_attributes : list (option Attribute) :=
  [ record "board" (PyStr "hail"); record "arch" (PyStr "cortex-m0");
    record "pagesize" (PyInt 256) ].

(** What [_run_openocd_commands] raises on the outcome [p] of a child
    process whose streams are text, by lines 94-107: [None] when it raises
    nothing. *)
Definition verdict (p : CompletedProcess) : option exn :=
  if negb (returncode p =? 0)%Z then
    Some (if contains "Can't find board/" (text_of (stdout p) +:+ text_of (stderr p))
          then board_config_not_found else external_tool_failure)
  else if contains "Error: No J-Link device found." (text_of (stdout p))
  then Some hardware_not_connected
  else None.

(** * Properties *)

(** ** Strings *)

Lemma append_cons (c : ascii) (s t : string) :
  String c s +:+ t = String c (s +:+ t).
Proof. reflexivity. Qed.

Lemma append_nil_l (s : string) : EmptyString +:+ s = s.
Proof. reflexivity. Qed.

Lemma append_nil_r (s : string) : s +:+ EmptyString = s.
Proof.
  induction s as [|c s IH]; [reflexivity|].
  now rewrite append_cons, IH.
Qed.

Lemma append_assoc (a b c : string) : (a +:+ b) +:+ c = a +:+ b +:+ c.
Proof.
  induction a as [|x a IH]; [reflexivity|].
  now rewrite !append_cons, IH.
Qed.

Lemma prefix_append (p s : string) : String.prefix p (p +:+ s) = true.
Proof.
  induction p as [|c p IH].
  - now destruct s.
  - rewrite append_cons. simpl.
    destruct (ascii_dec c c) as [_|ne]; [exact IH | now destruct ne].
Qed.

Lemma prefix_inv (p s : string) :
  String.prefix p s = true -> exists r, s = p +:+ r.
Proof.
  revert s; induction p as [|c p IH]; intros s H.
  - now exists s.
  - destruct s as [|d s]; simpl in H; [discriminate|].
    destruct (ascii_dec c d) as [->|_]; [|discriminate].
    destruct (IH s H) as [r ->]. now exists r.
Qed.

(** [contains] decides whether the pattern occurs in the text. *)
Lemma contains_iff (pat s : string) :
  contains pat s = true <-> exists a b, s = a +:+ pat +:+ b.
Proof.
  split.
  - induction s as [|c s IH]; intros H; cbn [contains] in H.
    + rewrite orb_false_r in H. apply prefix_inv in H as [r ->].
      now exists EmptyString, r.
    + apply orb_true_iff in H as [H|H].
      * apply prefix_inv in H as [r ->]. now exists EmptyString, r.
      * destruct (IH H) as (a & b & ->). now exists (String c a), b.
  - intros (a & b & ->).
    induction a as [|c a IH].
    + rewrite append_nil_l.
      assert (H := prefix_append pat b).
      destruct (pat +:+ b); cbn [contains]; now rewrite H.
    + rewrite append_cons. cbn [contains]. rewrite IH. apply orb_true_r.
Qed.

Lemma all_chars_append (f : ascii -> bool) (a b : string) :
  all_chars f (a +:+ b) = all_chars f a && all_chars f b.
Proof.
  induction a as [|c a IH]; [reflexivity|].
  rewrite append_cons. simpl. now rewrite IH, andb_assoc.
Qed.

(** ** Rendering of integers *)

Lemma plain_of_pos (p : positive) (rest : string) :
  exists digits,
    HexString.Raw.of_pos p rest = digits +:+ rest /\ all_chars plain digits = true.
Proof.
  revert rest.
  assert (step : forall (c : ascii) (q : positive) (rest : string),
             plain c = true ->
             (forall r, exists d,
                 HexString.Raw.of_pos q r = d +:+ r /\ all_chars plain d = true) ->
             exists d, HexString.Raw.of_pos q (String c rest) = d +:+ rest
                       /\ all_chars plain d = true).
  { intros c q rest Hc IH. destruct (IH (String c rest)) as (d & -> & Hd).
    exists (d +:+ String c EmptyString). split.
    - now rewrite append_assoc.
    - rewrite all_chars_append, Hd. simpl. now rewrite Hc. }
  assert (base : forall (c : ascii) (rest : string),
             plain c = true ->
             exists d, String c rest = d +:+ rest /\ all_chars plain d = true).
  { intros c rest Hc. exists (String c EmptyString). simpl. now rewrite Hc. }
  assert (bounded : forall (n : nat) (p : positive) (rest : string),
             (Pos.to_nat p < n)%nat ->
             exists d, HexString.Raw.of_pos p rest = d +:+ rest
                       /\ all_chars plain d = true).
  2: { intros rest. apply (bounded (S (Pos.to_nat p))). lia. }
  clear p. induction n as [|n IH]; intros p rest Hn; [lia|].
  destruct p as [[[[q|q|]|[q|q|]|]|[[q|q|]|[q|q|]|]|]|[[[q|q|]|[q|q|]|]|[[q|q|]|[q|q|]|]|]|];
    cbn [HexString.Raw.of_pos];
    first [ apply base; reflexivity
          | apply step; [reflexivity | intros r; apply IH; lia] ].
Qed.

Lemma plain_hex_alt (z : Z) : all_chars plain (hex_alt z) = true.
Proof.
  destruct z as [|p|p]; [reflexivity| |];
    unfold hex_alt, HexString.of_Z, HexString.of_pos;
    destruct (plain_of_pos p EmptyString) as (d & -> & Hd);
    rewrite append_nil_r; simpl; exact Hd.
Qed.

Lemma plain_uint (d : Decimal.uint) :
  all_chars plain (NilEmpty.string_of_uint d) = true.
Proof. induction d; simpl; auto. Qed.

Lemma plain_nilzero (d : Decimal.uint) :
  all_chars plain (NilZero.string_of_uint d) = true.
Proof. destruct d; first [reflexivity | apply plain_uint]. Qed.

Lemma plain_dec (z : Z) : all_chars plain (dec z) = true.
Proof.
  unfold dec, NilZero.string_of_int.
  destruct (Z.to_int z) as [d|d]; [apply plain_nilzero|].
  cbn [all_chars]. rewrite plain_nilzero. reflexivity.
Qed.

(** ** [str.format] *)

Lemma emit_emit (a b : string) (r : exn + string) :
  emit a (emit b r) = emit (a +:+ b) r.
Proof. destruct r; simpl; [reflexivity | now rewrite append_assoc]. Qed.

Lemma emit_nil (r : exn + string) : emit EmptyString r = r.
Proof. now destruct r. Qed.

Lemma plain_not_brace (c : ascii) :
  plain c = true -> Ascii.eqb c "{" = false /\ Ascii.eqb c "}" = false.
Proof.
  unfold plain. intros H. apply andb_true_iff in H as [H1 H2].
  now rewrite negb_true_iff in H1, H2.
Qed.

(** Text without braces is copied. *)
Lemma format_from_plain (kw : kwargs) (s t : string) :
  all_chars plain s = true ->
  format_from kw InText (s +:+ t) = emit s (format_from kw InText t).
Proof.
  induction s as [|c s IH]; intros H.
  - now rewrite append_nil_l, emit_nil.
  - cbn [all_chars] in H. apply andb_true_iff in H as [Hc Hs].
    apply plain_not_brace in Hc as [H1 H2].
    rewrite append_cons. cbn [format_from]. rewrite H1, H2, (IH Hs), emit_emit.
    reflexivity.
Qed.

Lemma format_from_plain_all (kw : kwargs) (s : string) :
  all_chars plain s = true -> format_from kw InText s = inr s.
Proof.
  intros H. rewrite <- (append_nil_r s) at 1. rewrite (format_from_plain _ _ _ H).
  cbn [format_from emit]. now rewrite append_nil_r.
Qed.

Lemma format_plain (kw : kwargs) (s : string) :
  all_chars plain s = true -> format s kw = inr s.
Proof. apply format_from_plain_all. Qed.

(** ** The monad *)

Lemma bind_value {A B : Type} (m : M A) (k : A -> M B) (s s1 : State) (a : A) :
  m s = (inr a, s1) -> bind m k s = k a s1.
Proof. intros E. unfold bind. now rewrite E. Qed.

Ltac bind_with E := rewrite (bind_value _ _ _ _ _ E); cbv beta.

(** ** The command line *)

Lemma source_clause_eq (o : OpenOCD) : source_clause o = inr (source_text o).
Proof.
  unfold source_clause, source_text.
  destruct (openocd_board o); reflexivity.
Qed.

(** Building the command line raises nothing, and yields the five clauses
    around the operation command, one space between them. *)
Lemma openocd_command_eq (o : OpenOCD) (cmd : string) :
  openocd_command o cmd = inr (command_line_of o cmd).
Proof.
  unfold openocd_command, command_line_of. rewrite source_clause_eq.
  generalize (source_text o) (cmd_prefix_clause o) (cmd_suffix_clause o).
  intros source cmd_prefix cmd_suffix.
  destruct (prefix_clause o); reflexivity.
Qed.

(** ** Frames: what a step leaves alone *)

Lemma same_but_printed_refl (s : State) : same_but_printed s s.
Proof. now repeat split. Qed.

Lemma same_but_printed_trans (s1 s2 s3 : State) :
  same_but_printed s1 s2 -> same_but_printed s2 s3 -> same_but_printed s1 s3.
Proof.
  unfold same_but_printed. intros (a1 & a2 & a3 & a4 & a5) (b1 & b2 & b3 & b4 & b5).
  repeat split; congruence.
Qed.

Lemma add_printed_frame (msg : string) (s : State) :
  same_but_printed s (add_printed msg s).
Proof. now repeat split. Qed.

(** [print_output] on streams that decode: the text of stdout followed by
    that of stderr, printed and returned. *)
Lemma print_output_text (p : CompletedProcess) (s : State) :
  utf8_valid (stdout p) = true -> utf8_valid (stderr p) = true ->
  print_output p s
  = (inr (text_of (stdout p) +:+ text_of (stderr p)),
     add_printed (text_of (stdout p) +:+ text_of (stderr p)) s).
Proof.
  intros Hout Herr. unfold print_output, bind, lift, decode_utf8, text_of.
  rewrite Hout, Herr.
  destruct (stdout p) as [|b bs], (stderr p) as [|c cs]; cbn;
    rewrite ?append_nil_r; reflexivity.
Qed.

Lemma print_output_frame (p : CompletedProcess) (s : State) :
  same_but_printed s (snd (print_output p s)).
Proof.
  unfold print_output, bind, lift, decode_utf8.
  destruct (stdout p) as [|b bs], (stderr p) as [|c cs]; cbn;
    repeat match goal with
           | |- context [if ?b then _ else _] => destruct b; cbn
           end;
    first [apply same_but_printed_refl | apply add_printed_frame].
Qed.

Lemma check_process_frame (o : OpenOCD) (run : ProcessRun) (write : bool) (s : State) :
  same_but_printed s (snd (check_process o run write s)).
Proof.
  unfold check_process, bind, lift.
  destruct (outcome run) as [e|p]; cbn; [apply same_but_printed_refl|].
  destruct (returncode p =? 0)%Z; cbn.
  - destruct (debug o); cbn.
    + assert (F := print_output_frame p s).
      destruct (print_output p s) as [[e|out] s1]; cbn in *; [exact F|].
      destruct (decode_utf8 (stdout p)) as [e|text]; cbn; [exact F|].
      destruct (contains _ text); cbn; [exact F|].
      destruct write; exact F.
    + destruct (decode_utf8 (stdout p)) as [e|text]; cbn; [apply same_but_printed_refl|].
      destruct (contains _ text); cbn; [apply same_but_printed_refl|].
      destruct write; apply same_but_printed_refl.
  - assert (F := print_output_frame p (add_printed
        ("ERROR: openocd returned with error code " +:+ dec (returncode p)) s)).
    assert (G := add_printed_frame
        ("ERROR: openocd returned with error code " +:+ dec (returncode p)) s).
    destruct (print_output p _) as [[e|out] s1]; cbn in *;
      [exact (same_but_printed_trans _ _ _ G F)|].
    destruct (contains _ out); cbn; exact (same_but_printed_trans _ _ _ G F).
Qed.

(** ** The outcome of the child process *)

Lemma check_process_failed (o : OpenOCD) (run : ProcessRun) (write : bool)
    (s : State) (p : CompletedProcess) :
  outcome run = inr p -> returncode p <> 0 ->
  utf8_valid (stdout p) = true -> utf8_valid (stderr p) = true ->
  fst (check_process o run write s)
  = inl (if contains "Can't find board/" (text_of (stdout p) +:+ text_of (stderr p))
         then board_config_not_found else external_tool_failure).
Proof.
  intros Hrun Hrc Hout Herr. unfold check_process, bind, lift. rewrite Hrun. cbn.
  apply Z.eqb_neq in Hrc. rewrite Hrc. cbn.
  rewrite (print_output_text _ _ Hout Herr).
  destruct (contains _ _); reflexivity.
Qed.

Lemma check_process_no_hardware (o : OpenOCD) (run : ProcessRun) (write : bool)
    (s : State) (p : CompletedProcess) :
  outcome run = inr p -> returncode p = 0 ->
  utf8_valid (stdout p) = true ->
  contains "Error: No J-Link device found." (text_of (stdout p)) = true ->
  (debug o = true -> utf8_valid (stderr p) = true) ->
  fst (check_process o run write s) = inl hardware_not_connected.
Proof.
  intros Hrun Hrc Hout Hpat Herr. unfold check_process, bind, lift.
  rewrite Hrun. cbn. rewrite Hrc. cbn.
  destruct (debug o); cbn.
  - rewrite (print_output_text _ _ Hout (Herr eq_refl)). cbn.
    unfold decode_utf8. rewrite Hout. cbn. fold (text_of (stdout p)).
    now rewrite Hpat.
  - unfold decode_utf8. rewrite Hout. cbn. fold (text_of (stdout p)).
    now rewrite Hpat.
Qed.

Lemma check_process_clean (o : OpenOCD) (run : ProcessRun) (write : bool) (s : State) :
  clean_exit o run ->
  fst (check_process o run write s)
  = inr (if write then None else Some (staged_after run)).
Proof.
  intros (p & Hrun & Hrc & Hout & Hpat & Herr). unfold check_process, bind, lift.
  rewrite Hrun. cbn. rewrite Hrc. cbn.
  destruct (debug o); cbn.
  - rewrite (print_output_text _ _ Hout (Herr eq_refl)). cbn.
    unfold decode_utf8. rewrite Hout. cbn. fold (text_of (stdout p)).
    rewrite Hpat. now destruct write.
  - unfold decode_utf8. rewrite Hout. cbn. fold (text_of (stdout p)).
    rewrite Hpat. now destruct write.
Qed.

(** ** Staging *)

(** Nothing is staged for a write of nothing. *)
Lemma stage_nothing (env : Env) (commands : string) (binary : option (list byte))
    (s : State) :
  bytes_truthy binary = false ->
  stage env commands binary true s = (inr (commands, None), s).
Proof. intros H. unfold stage, bind, get_self. rewrite H. reflexivity. Qed.

(** Otherwise a file is created and its name substituted. *)
Lemma stage_file (env : Env) (commands : string) (binary : option (list byte))
    (write : bool) (s : State) :
  bytes_truthy binary || negb write = true ->
  exists s1,
    stage env commands binary write s
    = (match format commands [("binary", PyStr (staged_name env s))] with
       | inl e => inl e
       | inr c => inr (c, Some (if write then default [] binary else []))
       end, s1)
    /\ self s1 = self s /\ processes s1 = processes s
    /\ attribute_queries s1 = attribute_queries s
    /\ exists delete,
         temp_files s1
         = (temp_files s ++ [(temp_name env (length (temp_files s)), delete)])%list.
Proof.
  intros H. unfold stage, bind, get_self, staged_name, NamedTemporaryFile.
  rewrite H. cbn.
  destruct (String.eqb (platform_system env) "Windows"); cbn;
    destruct (format commands _); cbn; eexists; (split; [reflexivity|]);
    cbn; repeat split; eexists; reflexivity.
Qed.

Lemma stage_frame (env : Env) (commands : string) (binary : option (list byte))
    (write : bool) (s : State) :
  self (snd (stage env commands binary write s)) = self s
  /\ processes (snd (stage env commands binary write s)) = processes s.
Proof.
  destruct (bytes_truthy binary || negb write) eqn:E.
  - destruct (stage_file env commands binary write s E) as (s1 & -> & H1 & H2 & _).
    now split.
  - apply orb_false_iff in E as [E1 E2]. apply negb_false_iff in E2. subst write.
    rewrite (stage_nothing _ _ _ _ E1). now split.
Qed.

(** ** [_run_openocd_commands] *)

Lemma run_unfold (env : Env) (commands : string) (binary : option (list byte))
    (write : bool) (s : State) :
  _run_openocd_commands env commands binary write s
  = match stage env commands binary write s with
    | (inl e, s1) => (inl e, s1)
    | (inr staged, s1) =>
        let command := command_line_of (self s) (fst staged) in
        let s2 :=
          if debug (self s)
          then add_printed ("Running " +:+ dquote +:+ command +:+ dquote +:+ ".") s1
          else s1 in
        check_process (self s) (subprocess_run env command (snd staged)) write
          (add_process command (snd staged) s2)
    end.
Proof.
  unfold _run_openocd_commands, bind, get_self.
  destruct (stage env commands binary write s) as [[e|staged] s1]; [reflexivity|].
  rewrite openocd_command_eq. cbn.
  destruct (debug (self s)); reflexivity.
Qed.

(** Either the child process is not started and the call raises, or it is
    started once, and the call ends as [check_process] does on its outcome. *)
Lemma run_trace (env : Env) (commands : string) (binary : option (list byte))
    (write : bool) (s : State) :
  let out := _run_openocd_commands env commands binary write s in
  (processes (snd out) = processes s /\ exists e, fst out = inl e)
  \/ exists c staged s1 s2,
       stage env commands binary write s = (inr (c, staged), s1)
       /\ same_but_printed s1 s2
       /\ out = check_process (self s)
                  (subprocess_run env (command_line_of (self s) c) staged) write
                  (add_process (command_line_of (self s) c) staged s2)
       /\ processes (snd out)
          = (processes s ++ [(command_line_of (self s) c, staged)])%list.
Proof.
  cbv zeta. rewrite run_unfold.
  destruct (stage_frame env commands binary write s) as [_ Hp].
  destruct (stage env commands binary write s) as [[e|[c staged]] s1]; cbn in *.
  - left. split; [exact Hp | now exists e].
  - right.
    exists c, staged, s1,
      (if debug (self s)
       then add_printed ("Running " +:+ dquote +:+ command_line_of (self s) c
                         +:+ dquote +:+ ".") s1
       else s1).
    split; [reflexivity|]. split.
    { destruct (debug (self s)); [apply add_printed_frame | apply same_but_printed_refl]. }
    split; [reflexivity|].
    match goal with
    | |- processes (snd (check_process ?o ?r ?w ?st)) = _ =>
        destruct (check_process_frame o r w st) as (_ & _ & _ & -> & _)
    end.
    cbn. destruct (debug (self s)); cbn; now rewrite Hp.
Qed.

(** ** The Process Runner's classification of failures *)

(** A stream that does not decode makes [print_output] raise, before it
    prints. *)
Lemma print_output_invalid (p : CompletedProcess) (s : State) :
  utf8_valid (stdout p) && utf8_valid (stderr p) = false ->
  print_output p s = (inl UnicodeDecodeError, s).
Proof.
  intros H. unfold print_output, bind, lift, decode_utf8.
  destruct (stdout p) as [|b bs] eqn:Eo.
  - cbn in H. cbn. rewrite H.
    destruct (stderr p) as [|c cs]; [discriminate H | reflexivity].
  - destruct (utf8_valid (b :: bs)) eqn:Vo; cbn; [|reflexivity].
    cbn in H. rewrite H.
    destruct (stderr p) as [|c cs]; [discriminate H | reflexivity].
Qed.

(** After a status other than 0: the classification when both streams
    decode, the decoder's exception when one does not. *)
Lemma check_process_nonzero (o : OpenOCD) (run : ProcessRun) (write : bool)
    (s : State) (p : CompletedProcess) :
  outcome run = inr p -> returncode p <> 0 ->
  fst (check_process o run write s)
  = inl (if utf8_valid (stdout p) && utf8_valid (stderr p)
         then if contains "Can't find board/"
                   (text_of (stdout p) +:+ text_of (stderr p))
              then board_config_not_found else external_tool_failure
         else UnicodeDecodeError).
Proof.
  intros Hrun Hrc.
  destruct (utf8_valid (stdout p) && utf8_valid (stderr p)) eqn:V.
  - apply andb_true_iff in V as [Vo Ve]. now apply check_process_failed.
  - unfold check_process. rewrite Hrun. unfold lift at 1.
    rewrite (bind_value _ _ s s p eq_refl). cbv beta.
    apply Z.eqb_neq in Hrc. rewrite Hrc. cbn [negb].
    unfold bind, print, modify.
    now rewrite (print_output_invalid p _ V).
Qed.

(** After status 0 with the report of missing hardware in stdout: the
    exception for missing hardware when what is decoded decodes, the
    decoder's exception when it does not.  Stderr is decoded in debug mode
    only. *)
Lemma check_process_zero_no_hardware (o : OpenOCD) (run : ProcessRun) (write : bool)
    (s : State) (p : CompletedProcess) :
  outcome run = inr p -> returncode p = 0 ->
  contains "Error: No J-Link device found." (text_of (stdout p)) = true ->
  fst (check_process o run write s)
  = inl (if utf8_valid (stdout p) && (negb (debug o) || utf8_valid (stderr p))
         then hardware_not_connected else UnicodeDecodeError).
Proof.
  intros Hrun Hrc Hpat.
  destruct (utf8_valid (stdout p) && (negb (debug o) || utf8_valid (stderr p))) eqn:V.
  - apply andb_true_iff in V as [Vo Ve].
    apply check_process_no_hardware with (p := p); auto.
    intros Hd. rewrite Hd in Ve. exact Ve.
  - unfold check_process. rewrite Hrun. unfold lift at 1.
    rewrite (bind_value _ _ s s p eq_refl). cbv beta.
    rewrite Hrc. cbn [Z.eqb negb].
    destruct (debug o) eqn:Hd; cbn [negb orb] in V.
    + unfold bind. now rewrite (print_output_invalid p s V).
    + rewrite andb_true_r in V. unfold bind, ret, lift, decode_utf8.
      rewrite V. reflexivity.
Qed.

(** C5, as stated, fails: the child process ends with status 1 and its
    stderr holds [Can't find board/] and one byte that is no UTF-8; the
    call raises the decoder's exception, which is neither of the two the
    claim names. *)
Lemma undecodable_failure_is_not_classified :
  let err := (list_byte_of_string "Error: Can't find board/caf" ++ [xe9])%list in
  let run :=
    {| outcome := inr {| returncode := 1; stdout := []; stderr := err |};
       staged_after := [] |} in
  let out :=
    _run_openocd_commands (world run (inr [])) "reset halt;" None true
      (initial unconfigured) in
  processes (snd out) = [(command_line_of unconfigured "reset halt;", None)]
  /\ contains "Can't find board/" (text_of err) = true
  /\ fst out = inl UnicodeDecodeError.
Proof. cbv zeta. repeat split; vm_compute; reflexivity. Qed.

(** C5, amended.  Whenever [_run_openocd_commands] has run the child process
    and the process ends with a status other than 0, the call raises: when
    the captured stdout and stderr both decode as UTF-8, the exception
    telling to update the external tool if the output, stdout followed by
    stderr, contains [Can't find board/], and the generic [openocd error]
    otherwise; and when one of them does not decode, the decoder's
    [UnicodeDecodeError]. *)
Theorem nonzero_exit_is_classified (env : Env) (commands : string)
    (binary : option (list byte)) (write : bool) (s : State)
    (command : string) (staged : option (list byte)) (p : CompletedProcess) :
  let out := _run_openocd_commands env commands binary write s in
  processes (snd out) = (processes s ++ [(command, staged)])%list ->
  outcome (subprocess_run env command staged) = inr p ->
  returncode p <> 0 ->
  fst out
  = inl (if utf8_valid (stdout p) && utf8_valid (stderr p)
         then if contains "Can't find board/"
                   (text_of (stdout p) +:+ text_of (stderr p))
              then board_config_not_found else external_tool_failure
         else UnicodeDecodeError).
Proof.
  intros out Htrace Hrun Hrc. subst out.
  pose proof (run_trace env commands binary write s) as T. cbv zeta in T.
  destruct T as [[Hsame _] | (c & st & s1 & s2 & _ & _ & Heq & Hp)].
  - rewrite Hsame in Htrace. apply (f_equal length) in Htrace.
    rewrite length_app in Htrace. cbn in Htrace. lia.
  - rewrite Hp in Htrace. apply app_inj_tail in Htrace as [_ Htrace].
    injection Htrace as <- <-.
    rewrite Heq. now apply check_process_nonzero.
Qed.

Lemma nonzero_exit_is_classified_witness :
  let env := world (exits 1 EmptyString "Error: Can't find board/hail.cfg" []) (inr []) in
  let s := initial unconfigured in
  let out := _run_openocd_commands env "reset halt;" None true s in
  processes (snd out)
  = (processes s ++ [(command_line_of unconfigured "reset halt;", None)])%list
  /\ fst out = inl board_config_not_found.
Proof.
  split; [vm_compute; reflexivity|].
  apply (nonzero_exit_is_classified
           (world (exits 1 EmptyString "Error: Can't find board/hail.cfg" []) (inr []))
           "reset halt;" None true (initial unconfigured)
           (command_line_of unconfigured "reset halt;") None
           {| returncode := 1; stdout := [];
              stderr := list_byte_of_string "Error: Can't find board/hail.cfg" |});
    first [ discriminate | vm_compute; reflexivity ].
Defined.

(** C2, as stated, fails: the child process ends with status 0 and its
    stdout holds [Error: No J-Link device found.] and one byte that is no
    UTF-8; the call raises the decoder's exception and not the one for
    missing hardware.  In debug mode a stderr that does not decode does the
    same. *)
Lemma undecodable_output_hides_missing_hardware :
  let out_bytes :=
    (list_byte_of_string "Error: No J-Link device found." ++ [xff])%list in
  let garbled :=
    {| outcome := inr {| returncode := 0; stdout := out_bytes; stderr := [] |};
       staged_after := [] |} in
  let noisy :=
    {| outcome :=
         inr {| returncode := 0;
                stdout := list_byte_of_string "Error: No J-Link device found.";
                stderr := [xff]%byte |};
       staged_after := [] |} in
  let out :=
    _run_openocd_commands (world garbled (inr [])) "reset halt;" None true
      (initial unconfigured) in
  let out_debug :=
    _run_openocd_commands (world noisy (inr [])) "reset halt;" None true
      (initial debugging) in
  processes (snd out) = [(command_line_of unconfigured "reset halt;", None)]
  /\ contains "Error: No J-Link device found." (text_of out_bytes) = true
  /\ fst out = inl UnicodeDecodeError
  /\ processes (snd out_debug) = [(command_line_of debugging "reset halt;", None)]
  /\ fst out_debug = inl UnicodeDecodeError.
Proof. cbv zeta. repeat split; vm_compute; reflexivity. Qed.

(** C2, amended.  Whenever [_run_openocd_commands] has run the child
    process, the process ends with status 0 and its captured stdout
    contains [Error: No J-Link device found.], the call raises and returns
    nothing: the exception for missing hardware when the stdout decodes as
    UTF-8 and, in debug mode, where both streams are printed first, the
    stderr decodes too; and the decoder's [UnicodeDecodeError] otherwise. *)
Theorem missing_hardware_overrides_exit_status (env : Env) (commands : string)
    (binary : option (list byte)) (write : bool) (s : State)
    (command : string) (staged : option (list byte)) (p : CompletedProcess) :
  let out := _run_openocd_commands env commands binary write s in
  processes (snd out) = (processes s ++ [(command, staged)])%list ->
  outcome (subprocess_run env command staged) = inr p ->
  returncode p = 0 ->
  contains "Error: No J-Link device found." (text_of (stdout p)) = true ->
  fst out
  = inl (if utf8_valid (stdout p)
            && (negb (debug (self s)) || utf8_valid (stderr p))
         then hardware_not_connected else UnicodeDecodeError).
Proof.
  intros out Htrace Hrun Hrc Hpat. subst out.
  pose proof (run_trace env commands binary write s) as T. cbv zeta in T.
  destruct T as [[Hsame _] | (c & st & s1 & s2 & _ & _ & Heq & Hp)].
  - rewrite Hsame in Htrace. apply (f_equal length) in Htrace.
    rewrite length_app in Htrace. cbn in Htrace. lia.
  - rewrite Hp in Htrace. apply app_inj_tail in Htrace as [_ Htrace].
    injection Htrace as <- <-.
    rewrite Heq. now apply check_process_zero_no_hardware.
Qed.

Lemma missing_hardware_overrides_exit_status_witness :
  let env :=
    world (exits 0 "Open On-Chip Debugger. Error: No J-Link device found. " EmptyString [])
          (inr []) in
  let s := initial unconfigured in
  let out := _run_openocd_commands env "reset halt;" None true s in
  processes (snd out)
  = (processes s ++ [(command_line_of unconfigured "reset halt;", None)])%list
  /\ fst out = inl hardware_not_connected.
Proof.
  split; [vm_compute; reflexivity|].
  apply (missing_hardware_overrides_exit_status
           (world (exits 0 "Open On-Chip Debugger. Error: No J-Link device found. "
                     EmptyString []) (inr []))
           "reset halt;" None true (initial unconfigured)
           (command_line_of unconfigured "reset halt;") None
           {| returncode := 0;
              stdout := list_byte_of_string
                          "Open On-Chip Debugger. Error: No J-Link device found. ";
              stderr := [] |});
    first [ discriminate | vm_compute; reflexivity ].
Defined.

(** ** The clauses of the command line *)

Lemma in_list_iff (x : string) (l : list string) :
  in_list x l = true <-> In x l.
Proof.
  unfold in_list. rewrite existsb_exists. split.
  - intros (y & Hy & E). apply String.eqb_eq in E. now subst.
  - intros H. exists x. split; [exact H | apply String.eqb_refl].
Qed.

Lemma in_list_false (x : string) (l : list string) :
  in_list x l = false <-> ~ In x l.
Proof.
  rewrite <- in_list_iff. destruct (in_list x l); split; congruence.
Qed.

Lemma py_eq_iff (a b : pyval) : py_eq a b = true <-> a = b.
Proof.
  destruct a, b; simpl; try (split; congruence).
  - rewrite String.eqb_eq. split; congruence.
  - rewrite Z.eqb_eq. split; congruence.
Qed.

(** C7.  In the command line that is built: with [workareazero] among the
    options and no prefix configured ([None] or the empty string), the
    prefix clause is [set WORKAREASIZE 0;]; with a prefix configured, the
    prefix clause is that prefix, whatever the options. *)
Theorem prefix_clause_of_command_line (o : OpenOCD) (cmd : string) :
  (In "workareazero" (openocd_options o) ->
   openocd_prefix o = PyNone \/ openocd_prefix o = PyStr EmptyString ->
   openocd_command o cmd
   = inr (command_line "set WORKAREASIZE 0;" (source_text o) (cmd_prefix_clause o)
            cmd (cmd_suffix_clause o)))
  /\ (forall prefix : string,
        openocd_prefix o = PyStr prefix -> prefix <> EmptyString ->
        openocd_command o cmd
        = inr (command_line prefix (source_text o) (cmd_prefix_clause o)
                 cmd (cmd_suffix_clause o))).
Proof.
  split.
  - intros Hin Hnone. rewrite openocd_command_eq. unfold command_line_of, prefix_clause.
    apply in_list_iff in Hin. rewrite Hin.
    now destruct Hnone as [-> | ->].
  - intros prefix Hp Hne. rewrite openocd_command_eq.
    unfold command_line_of, prefix_clause. rewrite Hp. cbn.
    apply String.eqb_neq in Hne. now rewrite Hne.
Qed.

Lemma prefix_clause_of_command_line_witness :
  let zero :=
    {| debug := false; board := PyNone; arch := PyNone;
       openocd_board := PyStr "nordic_nrf52_dk.cfg";
       openocd_options := ["workareazero"]; openocd_prefix := PyNone;
       openocd_commands := ∅; page_size := PyInt 4096; KNOWN_BOARDS := ∅ |} in
  let custom :=
    {| debug := false; board := PyNone; arch := PyNone;
       openocd_board := PyNone;
       openocd_options := ["workareazero"];
       openocd_prefix := PyStr "interface ftdi;";
       openocd_commands := ∅; page_size := PyInt 512; KNOWN_BOARDS := ∅ |} in
  openocd_command zero "halt;"
  = inr (command_line "set WORKAREASIZE 0;" "source [find board/nordic_nrf52_dk.cfg];"
           "init; reset init; halt;" "halt;" EmptyString)
  /\ openocd_command custom "halt;"
     = inr (command_line "interface ftdi;" EmptyString "init; reset init; halt;"
              "halt;" EmptyString).
Proof.
  split.
  - refine (proj1 (prefix_clause_of_command_line _ "halt;") _ _);
      [left; reflexivity | left; reflexivity].
  - refine (proj2 (prefix_clause_of_command_line _ "halt;") "interface ftdi;" _ _);
      [reflexivity | discriminate].
Defined.

(** C8.  In the command line that is built: with [noreset] among the
    options and [nocmdprefix] not, the preamble is [init; halt;], with no
    [reset init] in it; with [nocmdprefix] among the options the preamble is
    empty; and with no probe-tool board name ([None]) the source clause is
    empty: no [source] directive is in the command but what the other
    clauses bring. *)
Theorem preamble_and_source_of_command_line (o : OpenOCD) (cmd : string) :
  (In "noreset" (openocd_options o) -> ~ In "nocmdprefix" (openocd_options o) ->
   openocd_command o cmd
   = inr (command_line (py_str (prefix_clause o)) (source_text o) "init; halt;"
            cmd (cmd_suffix_clause o))
   /\ contains "reset init" "init; halt;" = false)
  /\ (In "nocmdprefix" (openocd_options o) ->
      openocd_command o cmd
      = inr (command_line (py_str (prefix_clause o)) (source_text o) EmptyString
               cmd (cmd_suffix_clause o)))
  /\ (openocd_board o = PyNone ->
      openocd_command o cmd
      = inr (command_line (py_str (prefix_clause o)) EmptyString (cmd_prefix_clause o)
               cmd (cmd_suffix_clause o))).
Proof.
  rewrite openocd_command_eq. unfold command_line_of. split; [|split].
  - intros Hin Hout. apply in_list_iff in Hin. apply in_list_false in Hout.
    unfold cmd_prefix_clause. rewrite Hin, Hout. now split.
  - intros Hin. apply in_list_iff in Hin. unfold cmd_prefix_clause. now rewrite Hin.
  - intros Hnone. unfold source_text. now rewrite Hnone.
Qed.

Lemma preamble_and_source_of_command_line_witness :
  let o (options : list string) :=
    {| debug := false; board := PyNone; arch := PyNone; openocd_board := PyNone;
       openocd_options := options; openocd_prefix := PyNone;
       openocd_commands := ∅; page_size := PyInt 512; KNOWN_BOARDS := ∅ |} in
  openocd_command (o ["noreset"]) "halt;"
  = inr (command_line EmptyString EmptyString "init; halt;" "halt;" EmptyString)
  /\ openocd_command (o ["noreset"; "nocmdprefix"]) "halt;"
     = inr (command_line EmptyString EmptyString EmptyString "halt;" EmptyString).
Proof.
  split.
  - refine (proj1 (proj1 (preamble_and_source_of_command_line _ "halt;") _ _)).
    + left; reflexivity.
    + intros [E|[]]; discriminate E.
  - refine (proj1 (proj2 (preamble_and_source_of_command_line _ "halt;")) _).
    right; left; reflexivity.
Defined.

(** ** Operations that stage no file *)

(** A write of nothing: no file is created, the operation command reaches
    the child process as it is, and a clean exit gives [None]. *)
Lemma run_without_file (env : Env) (commands : string) (binary : option (list byte))
    (s : State) :
  bytes_truthy binary = false ->
  let out := _run_openocd_commands env commands binary true s in
  let command := command_line_of (self s) commands in
  processes (snd out) = (processes s ++ [(command, None)])%list
  /\ temp_files (snd out) = temp_files s
  /\ collect_temp_files (snd out) = collect_temp_files s
  /\ (clean_exit (self s) (subprocess_run env command None) -> fst out = inr None).
Proof.
  intros Hb. cbv zeta. rewrite run_unfold, (stage_nothing _ _ _ _ Hb). cbn.
  set (s2 := add_process _ _ _).
  destruct (check_process_frame (self s)
              (subprocess_run env (command_line_of (self s) commands) None) true s2)
    as (_ & Hc & Ht & Hp & _).
  rewrite Hp, Ht, Hc. subst s2.
  repeat split; try (destruct (debug (self s)); reflexivity).
  intros Hclean. now rewrite (check_process_clean _ _ _ _ Hclean).
Qed.

Lemma format_erase_default (address : Z) :
  format "flash fillb {address:#x} 0xff 512;" [("address", PyInt address)]
  = inr ("flash fillb " +:+ hex_alt address +:+ " 0xff 512;").
Proof. reflexivity. Qed.

Lemma plain_erase_default (address : Z) :
  all_chars plain ("flash fillb " +:+ hex_alt address +:+ " 0xff 512;") = true.
Proof. now rewrite !all_chars_append, plain_hex_alt. Qed.

(** C6.  With no [erase] override, [erase_page(address)] stages no file and
    runs one child process, whose operation command is [flash fillb], the
    address in hexadecimal, the byte [0xff] and the count 512; when the
    process exits cleanly the call returns, with no result. *)
Theorem erase_page_fills_512_bytes (env : Env) (address : Z) (s : State) :
  openocd_commands (self s) !! "erase" = None ->
  let fill := "flash fillb " +:+ hex_alt address +:+ " 0xff 512;" in
  let command := command_line_of (self s) fill in
  let out := erase_page env address s in
  HexString.to_Z (hex_alt address) = address
  /\ processes (snd out) = (processes s ++ [(command, None)])%list
  /\ temp_files (snd out) = temp_files s
  /\ (clean_exit (self s) (subprocess_run env command None) -> fst out = inr tt).
Proof.
  intros Hnone fill command out.
  split; [apply HexString.to_Z_of_Z|].
  pose (s0 := if debug (self s)
              then add_printed ("Erasing page at address " +:+ hex_alt address) s
              else s).
  assert (Hs : same_but_printed s s0).
  { subst s0. destruct (debug (self s));
      [apply add_printed_frame | apply same_but_printed_refl]. }
  destruct Hs as (Hself & Hc & Ht & Hp & _).
  assert (E : out = match _run_openocd_commands env fill None true s0 with
                    | (inl e, s1) => (inl e, s1)
                    | (inr _, s1) => (inr tt, s1)
                    end).
  { subst out. unfold erase_page.
    bind_with (eq_refl : get_self s = (inr (self s), s)).
    assert (E0 : (if debug (self s)
                  then print ("Erasing page at address " +:+ hex_alt address)
                  else ret tt) s = (inr tt, s0)).
    { subst s0. now destruct (debug (self s)). }
    bind_with E0.
    rewrite format_erase_default, Hnone. cbn [default].
    bind_with (eq_refl : lift (inr fill) s0 = (inr fill, s0)).
    rewrite (format_plain _ _ (plain_erase_default address)).
    bind_with (eq_refl : lift (inr fill) s0 = (inr fill, s0)).
    unfold bind. now destruct (_run_openocd_commands env fill None true s0) as [[e|r] s1]. }
  pose proof (run_without_file env fill None s0 eq_refl) as R. cbv zeta in R.
  rewrite Hself, Hp, Ht in R. fold command in R.
  destruct R as (R1 & R2 & _ & R4).
  rewrite E.
  destruct (_run_openocd_commands env fill None true s0) as [[e|r] s1]; cbn in *.
  - repeat split; [exact R1 | exact R2 |]. intros Hclean. now specialize (R4 Hclean).
  - repeat split; [exact R1 | exact R2 ].
Qed.

Lemma erase_page_fills_512_bytes_witness :
  let env := world (exits 0 EmptyString EmptyString []) (inr []) in
  let out := erase_page env 196608 (initial unconfigured) in
  openocd_commands unconfigured !! "erase" = None
  /\ processes (snd out)
     = [(command_line EmptyString EmptyString "init; reset init; halt;"
           "flash fillb 0x30000 0xff 512;" EmptyString, None)]
  /\ fst out = inr tt.
Proof.
  cbv zeta.
  pose proof (erase_page_fills_512_bytes
                (world (exits 0 EmptyString EmptyString []) (inr []))
                196608 (initial unconfigured) eq_refl) as W.
  cbv zeta in W. destruct W as (_ & W2 & _ & W4).
  split; [reflexivity|]. split; [exact W2|].
  apply W4. eexists. repeat split; reflexivity.
Defined.

Lemma format_program_default (address : Z) :
  format "program {{binary}} verify {address:#x};" [("address", PyInt address)]
  = inr ("program {binary} verify " +:+ hex_alt address +:+ ";").
Proof. reflexivity. Qed.

(** What the operation command holds, the command line holds. *)
Lemma contains_command_line (pat prefix source cmd_prefix cmd cmd_suffix : string) :
  contains pat cmd = true ->
  contains pat (command_line prefix source cmd_prefix cmd cmd_suffix) = true.
Proof.
  intros H. apply contains_iff in H as (a & b & ->). apply contains_iff.
  exists ("openocd -c " +:+ dquote +:+ prefix +:+ " " +:+ source +:+ " "
          +:+ cmd_prefix +:+ " " +:+ a),
         (b +:+ " " +:+ cmd_suffix +:+ " exit" +:+ dquote).
  unfold command_line. now rewrite !append_assoc.
Qed.

(** C10.  [flash_binary(address, b'')] creates no staging file and
    substitutes nothing for the placeholder: the operation command goes to
    the child process as the first formatting left it, with any [{binary}]
    it holds; with the default [program] command it is
    [program {binary} verify] and the address, so the command line still
    holds the text [{binary}]. *)
Theorem flash_binary_of_nothing_keeps_placeholder (env : Env) (address : Z)
    (s : State) :
  let out := flash_binary env address (Some []) s in
  let template :=
    default "program {{binary}} verify {address:#x};"
      (openocd_commands (self s) !! "program") in
  temp_files (snd out) = temp_files s
  /\ collect_temp_files (snd out) = collect_temp_files s
  /\ (forall command : string,
        format template [("address", PyInt address)] = inr command ->
        processes (snd out)
        = (processes s ++ [(command_line_of (self s) command, None)])%list
        /\ (contains "{binary}" command = true ->
            contains "{binary}" (command_line_of (self s) command) = true))
  /\ (openocd_commands (self s) !! "program" = None ->
      let command := "program {binary} verify " +:+ hex_alt address +:+ ";" in
      processes (snd out)
      = (processes s ++ [(command_line_of (self s) command, None)])%list
      /\ contains "{binary}" (command_line_of (self s) command) = true).
Proof.
  cbv zeta.
  assert (E : flash_binary env address (Some []) s
              = match format (default "program {{binary}} verify {address:#x};"
                                (openocd_commands (self s) !! "program"))
                        [("address", PyInt address)] with
                | inl e => (inl e, s)
                | inr command =>
                    match _run_openocd_commands env command (Some []) true s with
                    | (inl e, s1) => (inl e, s1)
                    | (inr _, s1) => (inr tt, s1)
                    end
                end).
  { unfold flash_binary.
    bind_with (eq_refl : get_self s = (inr (self s), s)).
    destruct (format _ _) as [e|command]; [reflexivity|].
    bind_with (eq_refl : lift (inr command) s = (inr command, s)).
    unfold bind. now destruct (_run_openocd_commands env command (Some []) true s)
      as [[e|r] s1]. }
  assert (R : forall command,
             format (default "program {{binary}} verify {address:#x};"
                       (openocd_commands (self s) !! "program"))
               [("address", PyInt address)] = inr command ->
             processes (snd (flash_binary env address (Some []) s))
             = (processes s ++ [(command_line_of (self s) command, None)])%list).
  { intros command Hc. rewrite E, Hc.
    pose proof (run_without_file env command (Some []) s eq_refl) as R.
    cbv zeta in R. destruct R as (R1 & _).
    now destruct (_run_openocd_commands env command (Some []) true s) as [[e|r] s1]. }
  split; [|split; [|split]].
  - rewrite E. destruct (format _ _) as [e|command]; [reflexivity|].
    pose proof (run_without_file env command (Some []) s eq_refl) as F.
    cbv zeta in F. destruct F as (_ & F2 & _).
    now destruct (_run_openocd_commands env command (Some []) true s) as [[e|r] s1].
  - rewrite E. destruct (format _ _) as [e|command]; [reflexivity|].
    pose proof (run_without_file env command (Some []) s eq_refl) as F.
    cbv zeta in F. destruct F as (_ & _ & F3 & _).
    now destruct (_run_openocd_commands env command (Some []) true s) as [[e|r] s1].
  - intros command Hc. split; [now apply R | apply contains_command_line].
  - intros Hnone. split.
    + apply R. rewrite Hnone. apply format_program_default.
    + apply contains_command_line, contains_iff.
      exists "program ", (" verify " +:+ hex_alt address +:+ ";"). reflexivity.
Qed.

Lemma flash_binary_of_nothing_keeps_placeholder_witness :
  let env := world (exits 0 EmptyString EmptyString []) (inr []) in
  let out := flash_binary env 196608 (Some []) (initial unconfigured) in
  processes (snd out)
  = [(command_line EmptyString EmptyString "init; reset init; halt;"
        "program {binary} verify 0x30000;" EmptyString, None)].
Proof.
  cbv zeta.
  pose proof (flash_binary_of_nothing_keeps_placeholder
                (world (exits 0 EmptyString EmptyString []) (inr []))
                196608 (initial unconfigured)) as W.
  cbv zeta in W. destruct W as (_ & _ & W3 & _).
  exact (proj1 (W3 "program {binary} verify 0x30000;" eq_refl)).
Defined.

(** A buffer that is not empty is staged: once the operation command is
    formatted, [flash_binary] creates one temporary file. *)
Lemma flash_binary_stages_a_buffer (env : Env) (address : Z) (b : byte)
    (bs : list byte) (s : State) (command : string) :
  format (default "program {{binary}} verify {address:#x};"
            (openocd_commands (self s) !! "program"))
    [("address", PyInt address)] = inr command ->
  exists delete : bool,
    temp_files (snd (flash_binary env address (Some (b :: bs)) s))
    = (temp_files s ++ [(temp_name env (length (temp_files s)), delete)])%list.
Proof.
  intros Hc. unfold flash_binary.
  bind_with (eq_refl : get_self s = (inr (self s), s)).
  rewrite Hc.
  bind_with (eq_refl : lift (inr command) s = (inr command, s)).
  destruct (stage_file env command (Some (b :: bs)) true s eq_refl)
    as (s1 & Hstage & _ & _ & _ & delete & Ht).
  exists delete.
  assert (F : temp_files (snd (_run_openocd_commands env command (Some (b :: bs)) true s))
              = temp_files s1).
  { rewrite run_unfold, Hstage.
    destruct (format command _) as [e|c]; [reflexivity|]. cbv zeta.
    match goal with
    | |- temp_files (snd (check_process ?o ?r ?w ?st)) = _ =>
        destruct (check_process_frame o r w st) as (_ & _ & -> & _)
    end.
    cbn. now destruct (debug (self s)). }
  unfold bind.
  destruct (_run_openocd_commands env command (Some (b :: bs)) true s) as [[e|r] s2];
    cbn in *; congruence.
Qed.

(** ** Reading *)

Lemma check_process_read_inv (o : OpenOCD) (run : ProcessRun) (s : State)
    (r : option (list byte)) :
  fst (check_process o run false s) = inr r -> r = Some (staged_after run).
Proof.
  unfold check_process, bind, lift.
  destruct (outcome run) as [e|p]; cbn; [discriminate|].
  destruct (returncode p =? 0)%Z; cbn.
  - destruct (debug o); cbn.
    + destruct (print_output p s) as [[e|out] s1]; cbn; [discriminate|].
      destruct (decode_utf8 (stdout p)) as [e|text]; cbn; [discriminate|].
      destruct (contains _ text); cbn; [discriminate | congruence].
    + destruct (decode_utf8 (stdout p)) as [e|text]; cbn; [discriminate|].
      destruct (contains _ text); cbn; [discriminate | congruence].
  - destruct (print_output p _) as [[e|out] s1]; cbn; [discriminate|].
    destruct (contains _ out); cbn; discriminate.
Qed.

(** A read: the file's name is substituted, the child process runs on the
    empty file, and what the call returns is the file read back. *)
Lemma run_read (env : Env) (commands : string) (s : State) :
  let out := _run_openocd_commands env commands None false s in
  (forall r, fst out = inr r ->
     exists c,
       format commands [("binary", PyStr (staged_name env s))] = inr c
       /\ processes (snd out)
          = (processes s ++ [(command_line_of (self s) c, Some [])])%list
       /\ r = Some (staged_after
                      (subprocess_run env (command_line_of (self s) c) (Some []))))
  /\ (forall c,
        format commands [("binary", PyStr (staged_name env s))] = inr c ->
        clean_exit (self s)
          (subprocess_run env (command_line_of (self s) c) (Some [])) ->
        fst out
        = inr (Some (staged_after
                       (subprocess_run env (command_line_of (self s) c) (Some []))))).
Proof.
  cbv zeta.
  destruct (stage_file env commands None false s eq_refl) as (s1 & Hstage & _).
  pose proof (run_trace env commands None false s) as T. cbv zeta in T.
  split.
  - intros r Hr.
    destruct T as [[_ [e He]] | (c & st & s1' & s2 & Hst & _ & Heq & Hp)];
      [congruence|].
    rewrite Hstage in Hst.
    destruct (format commands _) as [e|c'] eqn:Hf; [discriminate|].
    injection Hst as <- <- <-.
    exists c'. split; [reflexivity|]. split; [exact Hp|].
    rewrite Heq in Hr. now apply check_process_read_inv in Hr.
  - intros c Hf Hclean. rewrite run_unfold, Hstage, Hf. cbn.
    now rewrite (check_process_clean _ _ _ _ Hclean).
Qed.

Lemma truncate_is_take (back : list byte) (n : Z) :
  0 <= n ->
  (if (n <? Z.of_nat (length back))%Z then slice_to back n else back)
  = take (Z.to_nat n) back.
Proof.
  intros Hn. destruct (Z.ltb_spec n (Z.of_nat (length back))) as [Hlt|Hge].
  - unfold slice_to. destruct (Z.ltb_spec n 0); [lia | reflexivity].
  - symmetry. apply take_ge. lia.
Qed.

Lemma read_range_unfold (env : Env) (address n : Z) (s : State) :
  0 <= n ->
  read_range env address n s
  = match format (default "dump_image {{binary}} {address:#x} {length};"
                    (openocd_commands (self s) !! "read"))
            [("address", PyInt address); ("length", PyInt n)] with
    | inl e => (inl e, s)
    | inr command =>
        match _run_openocd_commands env command None false s with
        | (inl e, s1) => (inl e, s1)
        | (inr result, s1) => (inr (take (Z.to_nat n) (default [] result)), s1)
        end
    end.
Proof.
  intros Hn. unfold read_range.
  bind_with (eq_refl : get_self s = (inr (self s), s)).
  destruct (format _ _) as [e|command]; [reflexivity|].
  bind_with (eq_refl : lift (inr command) s = (inr command, s)).
  unfold bind.
  destruct (_run_openocd_commands env command None false s) as [[e|result] s1];
    [reflexivity|].
  unfold ret. f_equal. f_equal.
  rewrite <- (truncate_is_take _ _ Hn).
  destruct result as [[|b bs]|]; reflexivity.
Qed.

Lemma format_read_default (address n : Z) :
  format "dump_image {{binary}} {address:#x} {length};"
    [("address", PyInt address); ("length", PyInt n)]
  = inr ("dump_image {binary} " +:+ hex_alt address +:+ " " +:+ dec n +:+ ";").
Proof. reflexivity. Qed.

Lemma format_from_binary (name rest : string) :
  format_from [("binary", PyStr name)] InText ("{binary}" +:+ rest)
  = emit name (format_from [("binary", PyStr name)] InText rest).
Proof. reflexivity. Qed.

(** The second formatting of the default read command puts the file's name
    in the placeholder's place and leaves the numbers as they are. *)
Lemma format_read_staged (address n : Z) (name : string) :
  format ("dump_image {binary} " +:+ hex_alt address +:+ " " +:+ dec n +:+ ";")
    [("binary", PyStr name)]
  = inr ("dump_image " +:+ name +:+ " " +:+ hex_alt address +:+ " " +:+ dec n +:+ ";").
Proof.
  unfold format.
  change ("dump_image {binary} " +:+ hex_alt address +:+ " " +:+ dec n +:+ ";")
    with ("dump_image " +:+ "{binary}" +:+
          (" " +:+ hex_alt address +:+ " " +:+ dec n +:+ ";")).
  rewrite (format_from_plain _ "dump_image " _ eq_refl), format_from_binary.
  rewrite format_from_plain_all.
  - reflexivity.
  - now rewrite !all_chars_append, plain_hex_alt, plain_dec.
Qed.

(** C1.  For a length [n >= 0]: whenever [read_range(address, n)] returns,
    it has run one child process on an empty staging file and returns the
    first [n] bytes of the file read back, so at most [n] bytes, exactly [n]
    when the file holds more and the whole file, with nothing added, when it
    holds no more.  With the default read command it does return whenever
    the child process exits cleanly. *)
Theorem read_range_returns_at_most_length (env : Env) (address n : Z) (s : State) :
  0 <= n ->
  let out := read_range env address n s in
  (forall r : list byte,
     fst out = inr r ->
     exists command : string,
       let back := staged_after (subprocess_run env command (Some [])) in
       processes (snd out) = (processes s ++ [(command, Some [])])%list
       /\ r = take (Z.to_nat n) back
       /\ Z.of_nat (length r) <= n
       /\ (n < Z.of_nat (length back) -> Z.of_nat (length r) = n)
       /\ (Z.of_nat (length back) <= n -> r = back))
  /\ (openocd_commands (self s) !! "read" = None ->
      let command :=
        command_line_of (self s)
          ("dump_image " +:+ staged_name env s +:+ " " +:+ hex_alt address
           +:+ " " +:+ dec n +:+ ";") in
      let back := staged_after (subprocess_run env command (Some [])) in
      clean_exit (self s) (subprocess_run env command (Some [])) ->
      fst out = inr (take (Z.to_nat n) back)).
Proof.
  intros Hn. cbv zeta. rewrite (read_range_unfold _ _ _ _ Hn). split.
  - intros r Hr.
    destruct (format _ _) as [e|command]; [discriminate|].
    pose proof (run_read env command s) as R. cbv zeta in R. destruct R as [R _].
    destruct (_run_openocd_commands env command None false s) as [[e|result] s1];
      [discriminate|].
    cbn in Hr, R |- *. destruct (R result eq_refl) as (c & _ & Hp & ->).
    exists (command_line_of (self s) c). cbn in Hr. injection Hr as <-.
    split; [exact Hp|]. split; [reflexivity|].
    rewrite length_take. repeat split; try lia.
    intros Hle. apply take_ge. lia.
  - intros Hnone Hclean. rewrite Hnone. cbn [default]. rewrite format_read_default.
    pose proof (run_read env
                  ("dump_image {binary} " +:+ hex_alt address +:+ " " +:+ dec n +:+ ";")
                  s) as R.
    cbv zeta in R. destruct R as [_ R].
    specialize (R _ (format_read_staged address n (staged_name env s)) Hclean).
    destruct (_run_openocd_commands env _ None false s) as [[e|result] s1];
      cbn in R; [discriminate|].
    injection R as ->. reflexivity.
Qed.

Lemma read_range_returns_at_most_length_witness :
  let env :=
    world (exits 0 EmptyString EmptyString [x01; x02; x03; x04; x05]%byte) (inr []) in
  let out := read_range env 196608 3 (initial unconfigured) in
  0 <= 3
  /\ fst out = inr [x01; x02; x03]%byte
  /\ processes (snd out)
     = [(command_line EmptyString EmptyString "init; reset init; halt;"
           "dump_image /tmp/tmp0.bin 0x30000 3;" EmptyString, Some [])].
Proof.
  cbv zeta.
  pose proof (read_range_returns_at_most_length
                (world (exits 0 EmptyString EmptyString [x01; x02; x03; x04; x05]%byte)
                   (inr []))
                196608 3 (initial unconfigured) ltac:(lia)) as W.
  cbv zeta in W. destruct W as [_ W2].
  split; [lia|]. split.
  - apply W2; [reflexivity|]. eexists. repeat split; reflexivity.
  - vm_compute. reflexivity.
Defined.

(** ** Board resolution *)

Lemma scan_attributes_app (a b : list (option Attribute)) (o : OpenOCD) :
  scan_attributes (a ++ b) o = scan_attributes b (scan_attributes a o).
Proof. apply fold_left_app. Qed.

(** The three ways [determine_current_board] goes. *)
Lemma determine_current_board_unfold (env : Env) (s : State) :
  determine_current_board env s
  = match already_set (self s) with
    | inl e => (inl e, s)
    | inr true => (inr tt, s)
    | inr false =>
        match known_board (self s) with
        | Some entry =>
            (inr tt,
             with_self (use_known_board entry (self s))
               (add_printed ("Using known arch and jtag-device for known board "
                             +:+ py_str (board (self s))) s))
        | None =>
            match get_all_attributes env with
            | inl e => (inl e, add_attribute_query s)
            | inr attributes =>
                let o := scan_attributes attributes (self s) in
                (if undetermined o then inl board_undetermined else inr tt,
                 with_self o (add_attribute_query s))
            end
        end
    end.
Proof.
  unfold determine_current_board.
  bind_with (eq_refl : get_self s = (inr (self s), s)).
  destruct (already_set (self s)) as [e|[|]]; try reflexivity.
  bind_with (eq_refl : lift (inr false) s = (inr false, s)).
  destruct (known_board (self s)) as [entry|]; [reflexivity|].
  unfold bind, query_attributes.
  destruct (get_all_attributes env) as [e|attributes]; [reflexivity|].
  cbn. now destruct (undetermined _).
Qed.

(** The attributes are queried only after both shortcuts were passed. *)
Lemma queried_inv (env : Env) (s : State) :
  attribute_queries (snd (determine_current_board env s)) <> attribute_queries s ->
  already_set (self s) = inr false /\ known_board (self s) = None.
Proof.
  rewrite determine_current_board_unfold.
  destruct (already_set (self s)) as [e|[|]]; cbn; try congruence.
  destruct (known_board (self s)); cbn; [congruence | now split].
Qed.

Lemma undetermined_iff (o : OpenOCD) :
  undetermined o = true
  <-> board o = PyNone \/ arch o = PyNone \/ page_size o = PyInt 0
      \/ openocd_board o = PyStr "cortex-m0".
Proof.
  unfold undetermined. rewrite !orb_true_iff, !py_eq_iff. tauto.
Qed.

(** C3.  When [determine_current_board] has queried the attributes and got
    them, [self] is what the scan of them leaves, and the call raises the
    exception for an undetermined board exactly when, after the scan, the
    board is [None], or the architecture is [None], or the page size is 0,
    or the probe-tool board name is [cortex-m0]; otherwise it returns.  A
    probe-tool board name [cortex-m0] alone makes it raise. *)
Theorem undetermined_exactly_when_a_field_is_missing (env : Env) (s : State)
    (attributes : list (option Attribute)) :
  let out := determine_current_board env s in
  let o := self (snd out) in
  attribute_queries (snd out) <> attribute_queries s ->
  get_all_attributes env = inr attributes ->
  o = scan_attributes attributes (self s)
  /\ (fst out = inl board_undetermined
      <-> board o = PyNone \/ arch o = PyNone \/ page_size o = PyInt 0
          \/ openocd_board o = PyStr "cortex-m0")
  /\ (fst out = inl board_undetermined \/ fst out = inr tt)
  /\ (openocd_board o = PyStr "cortex-m0" -> fst out = inl board_undetermined).
Proof.
  intros out o Hq Hattrs. subst o out.
  destruct (queried_inv env s Hq) as [Hset Hknown].
  rewrite determine_current_board_unfold, Hset, Hknown, Hattrs. cbn.
  split; [reflexivity|].
  rewrite <- undetermined_iff.
  destruct (undetermined (scan_attributes attributes (self s))) eqn:E.
  - repeat split; auto.
  - repeat split; auto; try discriminate.
    intros Hc. exfalso.
    assert (U : undetermined (scan_attributes attributes (self s)) = true).
    { apply undetermined_iff. now right; right; right. }
    congruence.
Qed.

Lemma undetermined_exactly_when_a_field_is_missing_witness :
  let env := world (exits 0 EmptyString EmptyString []) (inr cortex_m0_attributes) in
  let out := determine_current_board env (initial unconfigured) in
  attribute_queries (snd out) = 1%nat
  /\ board (self (snd out)) = PyStr "nrf51dk"
  /\ arch (self (snd out)) = PyStr "cortex-m0"
  /\ page_size (self (snd out)) = PyInt 1024
  /\ openocd_board (self (snd out)) = PyStr "cortex-m0"
  /\ fst out = inl board_undetermined.
Proof.
  cbv zeta.
  pose proof (undetermined_exactly_when_a_field_is_missing
                (world (exits 0 EmptyString EmptyString []) (inr cortex_m0_attributes))
                (initial unconfigured) cortex_m0_attributes
                ltac:(vm_compute; discriminate) eq_refl) as W.
  cbv zeta in W. destruct W as (_ & _ & _ & W4).
  refine (conj _ (conj _ (conj _ (conj _ (conj _ (W4 _))))));
    vm_compute; reflexivity.
Defined.

(** C4, as stated, fails: with the board [hail] named and the architecture,
    the probe-tool board name and a positive page size set by the caller,
    [determine_current_board] returns at line 175 and copies nothing from
    the catalog entry of [hail]. *)
Lemma preset_fields_are_not_overwritten_by_the_catalog :
  let env := world (exits 0 EmptyString EmptyString []) (inr []) in
  let out := determine_current_board env (initial hail_preset) in
  board hail_preset = PyStr "hail"
  /\ KNOWN_BOARDS hail_preset !! "hail" = Some hail_entry
  /\ fst out = inr tt
  /\ arch (self (snd out)) = PyStr "cortex-m0"
  /\ entry_arch hail_entry = PyStr "cortex-m4"
  /\ openocd_board (self (snd out)) = PyStr "custom.cfg"
  /\ entry_openocd hail_entry = PyStr "hail.cfg"
  /\ page_size (self (snd out)) = PyInt 1024
  /\ entry_page_size hail_entry = PyInt 512.
Proof. cbv zeta. repeat split; vm_compute; reflexivity. Qed.

(** C4, amended.  If the board identity is a non-empty string that names an
    entry of the catalog, [determine_current_board] never queries the device
    attributes.  When moreover the architecture and the probe-tool board
    name are set (neither [None] nor empty) and the page size is a positive
    number, it returns at once and changes nothing: nothing is copied from
    the entry.  When the architecture or the probe-tool board name is not
    set, or the page size is a number that is not positive, it returns with
    the architecture, the probe-tool board name and the page size of the
    entry, with the entry's options, prefix and command overrides where the
    entry has them, and with the board identity as it was.  In the case that
    is left, the architecture and the probe-tool board name set and the page
    size [None] or a string, the comparison of line 173 raises [TypeError]
    and nothing is changed. *)
Theorem known_board_is_resolved_from_the_catalog (env : Env) (s : State)
    (name : string) (entry : BoardEntry) :
  board (self s) = PyStr name -> name <> EmptyString ->
  KNOWN_BOARDS (self s) !! name = Some entry ->
  let out := determine_current_board env s in
  let o := self (snd out) in
  attribute_queries (snd out) = attribute_queries s
  /\ (truthy (arch (self s)) = true -> truthy (openocd_board (self s)) = true ->
      (exists z, page_size (self s) = PyInt z /\ 0 < z) ->
      out = (inr tt, s))
  /\ (truthy (arch (self s)) = false \/ truthy (openocd_board (self s)) = false
      \/ (exists z, page_size (self s) = PyInt z /\ z <= 0) ->
      fst out = inr tt
      /\ board o = PyStr name
      /\ arch o = entry_arch entry
      /\ openocd_board o = entry_openocd entry
      /\ page_size o = entry_page_size entry
      /\ openocd_options o
         = default (openocd_options (self s)) (entry_openocd_options entry)
      /\ openocd_prefix o
         = default (openocd_prefix (self s)) (entry_openocd_prefix entry)
      /\ openocd_commands o
         = default (openocd_commands (self s)) (entry_openocd_commands entry))
  /\ (truthy (arch (self s)) = true -> truthy (openocd_board (self s)) = true ->
      page_size (self s) = PyNone \/ (exists t, page_size (self s) = PyStr t) ->
      exists msg, out = (inl (TypeError msg), s)).
Proof.
  intros Hboard Hname Hentry out o. subst o out.
  assert (Hknown : known_board (self s) = Some entry).
  { unfold known_board. rewrite Hboard. cbn.
    apply String.eqb_neq in Hname. now rewrite Hname. }
  assert (Hb : truthy (board (self s)) = true).
  { rewrite Hboard. cbn. apply String.eqb_neq in Hname. now rewrite Hname. }
  rewrite determine_current_board_unfold, Hknown. split; [|split; [|split]].
  - now destruct (already_set (self s)) as [e|[|]].
  - intros Ha Ho (z & Hp & Hz).
    assert (Hset : already_set (self s) = inr true).
    { unfold already_set. rewrite Hb, Ha, Ho, Hp. cbn. f_equal. lia. }
    now rewrite Hset.
  - intros Hunset.
    assert (Hset : already_set (self s) = inr false).
    { unfold already_set.
      destruct Hunset as [H | [H | (z & H & Hz)]]; rewrite H.
      - now rewrite andb_false_r.
      - now rewrite andb_false_r.
      - destruct (_ && _); [|reflexivity]. cbn. f_equal. lia. }
    rewrite Hset. cbn. now rewrite Hboard.
  - intros Ha Ho Hp. unfold already_set. rewrite Hb, Ha, Ho. cbn [andb].
    destruct Hp as [Hp | [t Hp]]; rewrite Hp; cbn [py_gt0]; eauto.
Qed.

(** The scenario of the specification, where the caller names [hail] and
    nothing else, and the one where the caller has set the other fields
    too. *)
Lemma known_board_is_resolved_from_the_catalog_witness :
  let env := world (exits 0 EmptyString EmptyString []) (inr []) in
  let out := determine_current_board env (initial hail_by_name) in
  board hail_by_name = PyStr "hail"
  /\ KNOWN_BOARDS hail_by_name !! "hail" = Some hail_entry
  /\ attribute_queries (snd out) = 0%nat
  /\ fst out = inr tt
  /\ arch (self (snd out)) = PyStr "cortex-m4"
  /\ openocd_board (self (snd out)) = PyStr "hail.cfg"
  /\ page_size (self (snd out)) = PyInt 512
  /\ determine_current_board env (initial hail_preset) = (inr tt, initial hail_preset).
Proof.
  cbv zeta.
  assert (L : KNOWN_BOARDS hail_by_name !! "hail" = Some hail_entry)
    by (vm_compute; reflexivity).
  pose proof (known_board_is_resolved_from_the_catalog
                (world (exits 0 EmptyString EmptyString []) (inr []))
                (initial hail_by_name) "hail" hail_entry
                eq_refl ltac:(discriminate) L) as W.
  cbv zeta in W. destruct W as (W1 & _ & W2 & _).
  destruct (W2 (or_introl eq_refl)) as (R & _ & Ra & Ro & Rp & _).
  pose proof (known_board_is_resolved_from_the_catalog
                (world (exits 0 EmptyString EmptyString []) (inr []))
                (initial hail_preset) "hail" hail_entry
                eq_refl ltac:(discriminate) L) as V.
  cbv zeta in V. destruct V as (_ & V2 & _).
  refine (conj eq_refl (conj L (conj W1 (conj R (conj Ra (conj Ro (conj Rp _))))))).
  apply V2; [reflexivity | reflexivity |]. exists 1024. split; [reflexivity | lia].
Defined.

(** ** The page size during the scan *)

Lemma page_size_step (o : OpenOCD) (attribute : option Attribute) :
  page_size (scan_attribute o attribute)
  = if has_key attribute "pagesize" && py_eq (page_size o) (PyInt 0)
    then value_of attribute else page_size o.
Proof.
  unfold scan_attribute.
  destruct (has_key attribute "board" && py_eq (board o) PyNone),
           (has_key attribute "arch" && _),
           (has_key attribute "openocd"); cbn;
    destruct (has_key attribute "pagesize" && _); reflexivity.
Qed.

Lemma nonzero_page_size_step (o : OpenOCD) (attribute : option Attribute) :
  page_size o <> PyInt 0 ->
  page_size (scan_attribute o attribute) = page_size o.
Proof.
  intros Hnz. rewrite page_size_step.
  destruct (py_eq (page_size o) (PyInt 0)) eqn:E.
  - apply py_eq_iff in E. contradiction.
  - now rewrite andb_false_r.
Qed.

Lemma nonzero_page_size_scan (attributes : list (option Attribute)) (o : OpenOCD) :
  page_size o <> PyInt 0 ->
  page_size (scan_attributes attributes o) = page_size o.
Proof.
  revert o. induction attributes as [|a rest IH]; intros o Hnz; [reflexivity|].
  cbn. unfold scan_attributes in IH. rewrite IH.
  - now apply nonzero_page_size_step.
  - now rewrite nonzero_page_size_step.
Qed.

(** A [pagesize] record touches nothing but the page size. *)
Lemma pagesize_step (o : OpenOCD) (v : pyval) :
  scan_attribute o (pagesize v)
  = if py_eq (page_size o) (PyInt 0) then set_page_size v o else o.
Proof. reflexivity. Qed.

Lemma set_page_size_same (o : OpenOCD) : set_page_size (page_size o) o = o.
Proof. now destruct o. Qed.

(** A record [pagesize = 0] changes nothing at all. *)
Lemma pagesize_zero_step (o : OpenOCD) : scan_attribute o pagesize_zero = o.
Proof.
  unfold pagesize_zero. rewrite pagesize_step.
  destruct (py_eq (page_size o) (PyInt 0)) eqn:E; [|reflexivity].
  apply py_eq_iff in E. rewrite <- E. apply set_page_size_same.
Qed.

(** Once a record [pagesize = v] was scanned, the page size is not 0 any
    more, unless [v] is 0 itself. *)
Lemma after_pagesize (v : pyval) (o : OpenOCD) :
  page_size (scan_attribute o (pagesize v)) <> PyInt 0 \/ v = PyInt 0.
Proof.
  rewrite pagesize_step.
  destruct (py_eq (page_size o) (PyInt 0)) eqn:E.
  - cbn. destruct v as [|t|z]; try (left; discriminate).
    destruct (Z.eq_dec z 0) as [->|Hz]; [now right | left; congruence].
  - left. intros H. apply py_eq_iff in H. congruence.
Qed.

(** A second record [pagesize = v] changes nothing. *)
Lemma second_pagesize_step (v : pyval) (between : list (option Attribute))
    (o : OpenOCD) :
  let o1 := scan_attributes between (scan_attribute o (pagesize v)) in
  scan_attribute o1 (pagesize v) = o1.
Proof.
  cbv zeta. destruct (after_pagesize v o) as [Hnz | ->].
  - rewrite pagesize_step.
    destruct (py_eq (page_size (scan_attributes between _)) (PyInt 0)) eqn:E;
      [|reflexivity].
    apply py_eq_iff in E. rewrite (nonzero_page_size_scan _ _ Hnz) in E.
    contradiction.
  - apply pagesize_zero_step.
Qed.

(** C9.  In the scan of [determine_current_board]: one record changes the
    page size only if it is a [pagesize] record and the page size is 0 then;
    a page size other than 0, set by the caller or by an earlier record, is
    kept through all the records that follow; and the second of two records
    [pagesize = v], for [v] the number 0 as for any other value, changes
    nothing: the scan goes on as it does without that record.  So when
    [determine_current_board] queries the attributes, a page size other than
    0 is still there afterwards. *)
Theorem pagesize_is_assigned_only_while_zero :
  (forall (o : OpenOCD) (attribute : option Attribute),
     page_size (scan_attribute o attribute) <> page_size o ->
     has_key attribute "pagesize" = true /\ page_size o = PyInt 0)
  /\ (forall (attributes : list (option Attribute)) (o : OpenOCD),
        page_size o <> PyInt 0 ->
        page_size (scan_attributes attributes o) = page_size o)
  /\ (forall (v : pyval) (before between after : list (option Attribute))
             (o : OpenOCD),
        scan_attributes (before ++ pagesize v :: between ++ [pagesize v]) o
        = scan_attributes (before ++ pagesize v :: between) o
        /\ scan_attributes (before ++ pagesize v :: between ++ pagesize v :: after) o
           = scan_attributes (before ++ pagesize v :: between ++ after) o)
  /\ (forall (env : Env) (s : State),
        let out := determine_current_board env s in
        attribute_queries (snd out) <> attribute_queries s ->
        page_size (self s) <> PyInt 0 ->
        page_size (self (snd out)) = page_size (self s)).
Proof.
  split; [|split; [|split]].
  - intros o attribute Hchanged. rewrite page_size_step in Hchanged.
    destruct (has_key attribute "pagesize"); cbn in Hchanged; [|congruence].
    destruct (py_eq (page_size o) (PyInt 0)) eqn:E; [|congruence].
    now apply py_eq_iff in E.
  - exact nonzero_page_size_scan.
  - intros v before between after o.
    assert (E : forall rest,
               scan_attributes (before ++ pagesize v :: between ++ pagesize v :: rest) o
               = scan_attributes rest
                   (scan_attributes (before ++ pagesize v :: between) o)).
    { intros rest.
      change (pagesize v :: between ++ pagesize v :: rest)%list
        with ((pagesize v :: between) ++ pagesize v :: rest)%list.
      rewrite app_assoc, scan_attributes_app.
      change (scan_attributes (pagesize v :: rest) ?x)
        with (scan_attributes rest (scan_attribute x (pagesize v))).
      rewrite scan_attributes_app.
      change (scan_attributes (pagesize v :: between) ?x)
        with (scan_attributes between (scan_attribute x (pagesize v))).
      pose proof (second_pagesize_step v between (scan_attributes before o)) as S2.
      cbv zeta in S2. now rewrite S2. }
    split.
    + now rewrite E.
    + rewrite E, <- scan_attributes_app, <- app_assoc. reflexivity.
  - intros env s out Hq Hnz. subst out.
    destruct (queried_inv env s Hq) as [Hset Hknown].
    rewrite determine_current_board_unfold, Hset, Hknown.
    destruct (get_all_attributes env) as [e|attributes]; cbn; [reflexivity|].
    now apply nonzero_page_size_scan.
Qed.

Lemma pagesize_is_assigned_only_while_zero_witness :
  let attributes := [ pagesize_zero; pagesize (PyInt 512); pagesize_zero ] in
  page_size (scan_attributes attributes (set_page_size (PyInt 256) unconfigured))
  = PyInt 256
  /\ page_size (scan_attributes attributes unconfigured) = PyInt 512.
Proof.
  cbv zeta. destruct pagesize_is_assigned_only_while_zero as (_ & W2 & W3 & _).
  split.
  - apply (W2 _ (set_page_size (PyInt 256) unconfigured)). discriminate.
  - destruct (W3 (PyInt 0) [] [pagesize (PyInt 512)] [] unconfigured) as [W _].
    exact (eq_trans (f_equal page_size W) eq_refl).
Defined.

(** ** The model on concrete inputs *)

Example format_program_command :
  format "program {{binary}} verify {address:#x};" [("address", PyInt 196608)]
  = inr "program {binary} verify 0x30000;".
Proof. reflexivity. Qed.

Example format_override_without_escape :
  format "flash write_image {binary} {address:#x};" [("address", PyInt 196608)]
  = inl (KeyError "binary").
Proof. reflexivity. Qed.

Example format_stray_brace :
  format "reset } halt" [("address", PyInt 0)]
  = inl (ValueError "Single '}' encountered in format string").
Proof. reflexivity. Qed.

Example decode_accepts_two_byte_sequence :
  utf8_valid [xc3; xa9]%byte = true /\ utf8_valid [xc0; x80]%byte = false
  /\ utf8_valid [xed; xa0; x80]%byte = false /\ utf8_valid [xff]%byte = false.
Proof. repeat split. Qed.

Example windows_name_is_escaped :
  let env :=
    {| platform_system := "Windows";
       temp_name := fun _ => "C:\Temp\tmp1.bin";
       subprocess_run := fun _ _ => exits 0 EmptyString EmptyString [];
       get_all_attributes := inr [] |} in
  staged_name env (initial unconfigured) = "C:\\\Temp\\\tmp1.bin"
  /\ collect_temp_files
       (snd (flash_binary env 0 (Some [x01]%byte) (initial unconfigured)))
     = ["C:\\\Temp\\\tmp1.bin"].
Proof. split; vm_compute; reflexivity. Qed.

(** Lengths are unsigned in the interface; with a negative length Python's
    slice counts from the end, which is why the bound on [read_range] is
    stated for [0 <= n]. *)
Remark slice_with_negative_stop :
  slice_to [x01; x02; x03; x04; x05]%byte (-1) = [x01; x02; x03; x04]%byte.
Proof. reflexivity. Qed.

(** The outcome of the specification carries text.  A captured stream that
    is no UTF-8 makes the decoding raise before the output is looked at. *)
Remark undecodable_stream_raises :
  let failed :=
    {| outcome := inr {| returncode := 1; stdout := [xff]%byte; stderr := [] |};
       staged_after := [] |} in
  fst (_run_openocd_commands (world failed (inr [])) "reset halt;" None true
         (initial unconfigured))
  = inl UnicodeDecodeError.
Proof. reflexivity. Qed.

(** * Further properties *)

(** ** Staging, in full *)

(** The state after a file is staged. *)
Lemma stage_file_state (env : Env) (commands : string) (binary : option (list byte))
    (write : bool) (s : State) :
  stages binary write = true ->
  let created :=
    add_temp_file (temp_name env (length (temp_files s))) (delete_flag env (self s)) s in
  let s1 :=
    if String.eqb (platform_system env) "Windows"
    then add_collected (staged_name env s) created else created in
  stage env commands binary write s
  = (match format commands [("binary", PyStr (staged_name env s))] with
     | inl e => inl e
     | inr c => inr (c, Some (if write then default [] binary else []))
     end, s1).
Proof.
  unfold stages. intros H.
  unfold stage, bind, get_self, staged_name, NamedTemporaryFile, delete_flag.
  rewrite H. cbn.
  destruct (String.eqb (platform_system env) "Windows"), (debug (self s)); cbn;
    destruct (format commands _); reflexivity.
Qed.

Lemma stage_prints_nothing (env : Env) (commands : string)
    (binary : option (list byte)) (write : bool) (s : State) :
  printed (snd (stage env commands binary write s)) = printed s.
Proof.
  destruct (stages binary write) eqn:E.
  - pose proof (stage_file_state env commands binary write s E) as H.
    cbv zeta in H. rewrite H. cbn.
    now destruct (String.eqb (platform_system env) "Windows").
  - unfold stages in E. apply orb_false_iff in E as [E1 E2].
    apply negb_false_iff in E2. subst write.
    now rewrite (stage_nothing _ _ _ _ E1).
Qed.

(** What [_run_openocd_commands] leaves of a state but the printed lines
    and the process it runs: the state as staging left it. *)
Lemma run_keeps_staged_state (env : Env) (commands : string)
    (binary : option (list byte)) (write : bool) (s : State) :
  let out := _run_openocd_commands env commands binary write s in
  let s1 := snd (stage env commands binary write s) in
  self (snd out) = self s1
  /\ collect_temp_files (snd out) = collect_temp_files s1
  /\ temp_files (snd out) = temp_files s1
  /\ attribute_queries (snd out) = attribute_queries s1.
Proof.
  cbv zeta. rewrite run_unfold.
  destruct (stage env commands binary write s) as [[e|staged] s1]; cbn;
    [now repeat split|].
  match goal with
  | |- context [check_process ?o ?r ?w ?st] =>
      destruct (check_process_frame o r w st) as (-> & -> & -> & _ & ->)
  end.
  destruct (debug (self s)); now repeat split.
Qed.

(** The files of a run: one, with its flag and its name collected on
    Windows, when a file is staged, and none otherwise. *)
Lemma run_files (env : Env) (commands : string) (binary : option (list byte))
    (write : bool) (s : State) :
  let out := _run_openocd_commands env commands binary write s in
  (stages binary write = true ->
   temp_files (snd out)
   = (temp_files s
      ++ [(temp_name env (length (temp_files s)), delete_flag env (self s))])%list
   /\ collect_temp_files (snd out)
      = if String.eqb (platform_system env) "Windows"
        then (collect_temp_files s ++ [staged_name env s])%list
        else collect_temp_files s)
  /\ (stages binary write = false ->
      temp_files (snd out) = temp_files s
      /\ collect_temp_files (snd out) = collect_temp_files s).
Proof.
  cbv zeta.
  pose proof (run_keeps_staged_state env commands binary write s) as K.
  cbv zeta in K. destruct K as (_ & Kc & Kt & _). rewrite Kc, Kt. split.
  - intros H. pose proof (stage_file_state env commands binary write s H) as E.
    cbv zeta in E. rewrite E. cbn.
    now destruct (String.eqb (platform_system env) "Windows").
  - intros H. unfold stages in H. apply orb_false_iff in H as [H1 H2].
    apply negb_false_iff in H2. subst write.
    now rewrite (stage_nothing _ _ _ _ H1).
Qed.

(** A run that stages a file: the child process gets the command with the
    file's name in it and the file's contents, and a clean exit gives the
    file read back when reading and [None] when writing. *)
Lemma run_with_file (env : Env) (commands : string) (binary : option (list byte))
    (write : bool) (s : State) (c : string) :
  stages binary write = true ->
  format commands [("binary", PyStr (staged_name env s))] = inr c ->
  let content := if write then default [] binary else [] in
  let command := command_line_of (self s) c in
  let out := _run_openocd_commands env commands binary write s in
  processes (snd out) = (processes s ++ [(command, Some content)])%list
  /\ (clean_exit (self s) (subprocess_run env command (Some content)) ->
      fst out
      = inr (if write then None
             else Some (staged_after (subprocess_run env command (Some content))))).
Proof.
  intros Hst Hf. cbv zeta.
  pose proof (stage_file_state env commands binary write s Hst) as St.
  cbv zeta in St. rewrite run_unfold, St, Hf. cbn [fst snd]. cbv zeta. split.
  - match goal with
    | |- context [check_process ?o ?r ?w ?st] =>
        destruct (check_process_frame o r w st) as (_ & _ & _ & -> & _)
    end.
    destruct (debug (self s)), (String.eqb (platform_system env) "Windows");
      reflexivity.
  - intros Hclean. now rewrite (check_process_clean _ _ _ _ Hclean).
Qed.

(** X2.  [_run_openocd_commands] records a file's name in
    [collect_temp_files] on Windows only, and there for every file it stages,
    under the escaped name; a staged file is created with [delete] set
    unless the platform is Windows or debug mode is on; and when nothing is
    staged no file is created. *)
Theorem names_are_collected_on_windows_only (env : Env) (commands : string)
    (binary : option (list byte)) (write : bool) (s : State) :
  let out := _run_openocd_commands env commands binary write s in
  (stages binary write = true ->
   temp_files (snd out)
   = (temp_files s
      ++ [(temp_name env (length (temp_files s)), delete_flag env (self s))])%list
   /\ collect_temp_files (snd out)
      = if String.eqb (platform_system env) "Windows"
        then (collect_temp_files s ++ [staged_name env s])%list
        else collect_temp_files s)
  /\ (stages binary write = false ->
      temp_files (snd out) = temp_files s
      /\ collect_temp_files (snd out) = collect_temp_files s).
Proof. exact (run_files env commands binary write s). Qed.

Lemma names_are_collected_on_windows_only_witness :
  let env := windows_world "C:\Temp\t.bin" (exits 0 EmptyString EmptyString []) in
  let out :=
    _run_openocd_commands env "dump_image {binary} 0x0 4;" None false
      (initial unconfigured) in
  temp_files (snd out) = [("C:\Temp\t.bin", false)]
  /\ collect_temp_files (snd out) = ["C:\\\Temp\\\t.bin"].
Proof.
  cbv zeta.
  exact (proj1 (names_are_collected_on_windows_only
                  (windows_world "C:\Temp\t.bin" (exits 0 EmptyString EmptyString []))
                  "dump_image {binary} 0x0 4;" None false (initial unconfigured))
               eq_refl).
Defined.

(** ** The escaped name *)

Lemma replace_char_tripled (name : string) :
  tripled name (replace_char "\" "\\\" name).
Proof.
  induction name as [|a name IH]; [constructor|].
  cbn [replace_char]. destruct (Ascii.eqb a "\") eqn:E.
  - apply Ascii.eqb_eq in E. subst a. now constructor.
  - apply Ascii.eqb_neq in E. now constructor.
Qed.

Lemma tripled_unique (name a b : string) :
  tripled name a -> tripled name b -> a = b.
Proof.
  intros Ha. revert b. induction Ha as [|s t Ha IH|c s t Hc Ha IH]; intros b Hb.
  - now inversion Hb.
  - inversion Hb as [|s' t' Hb'|c' s' t' Hc' Hb']; subst.
    + now rewrite (IH _ Hb').
    + contradiction.
  - inversion Hb as [|s' t' Hb'|c' s' t' Hc' Hb']; subst.
    + contradiction.
    + now rewrite (IH _ Hb').
Qed.

(** X3.  When [_run_openocd_commands] stages a file, the name it puts
    into the command is the temporary file's name itself off Windows; on
    Windows it is that name with each backslash made three, in its place,
    and this escaped name is the one recorded in [collect_temp_files].  When
    the substitution succeeds, the child process is run on the command with
    that name in it. *)
Theorem staged_name_is_escaped_on_windows (env : Env) (commands : string)
    (binary : option (list byte)) (write : bool) (s : State) :
  stages binary write = true ->
  let name := temp_name env (length (temp_files s)) in
  let out := _run_openocd_commands env commands binary write s in
  exists escaped : string,
    (if String.eqb (platform_system env) "Windows"
     then tripled name escaped
          /\ (forall other, tripled name other -> other = escaped)
          /\ collect_temp_files (snd out) = (collect_temp_files s ++ [escaped])%list
     else escaped = name /\ collect_temp_files (snd out) = collect_temp_files s)
    /\ (forall c : string,
          format commands [("binary", PyStr escaped)] = inr c ->
          processes (snd out)
          = (processes s
             ++ [(command_line_of (self s) c,
                  Some (if write then default [] binary else []))])%list).
Proof.
  intros Hst. cbv zeta. exists (staged_name env s). split.
  - pose proof (run_files env commands binary write s) as F. cbv zeta in F.
    destruct F as [F _]. destruct (F Hst) as [_ Fc]. rewrite Fc.
    unfold staged_name.
    destruct (String.eqb (platform_system env) "Windows"); [|now split].
    split; [apply replace_char_tripled|]. split; [|reflexivity].
    intros other Ho. apply (tripled_unique _ _ _ Ho), replace_char_tripled.
  - intros c Hc.
    pose proof (run_with_file env commands binary write s c Hst Hc) as R.
    cbv zeta in R. exact (proj1 R).
Qed.

Lemma staged_name_is_escaped_on_windows_witness :
  let env := windows_world "C:\Temp\t.bin" (exits 0 EmptyString EmptyString []) in
  let out :=
    _run_openocd_commands env "dump_image {binary} 0x0 4;" None false
      (initial unconfigured) in
  stages None false = true
  /\ collect_temp_files (snd out) = ["C:\\\Temp\\\t.bin"]
  /\ processes (snd out)
     = [(command_line_of unconfigured "dump_image C:\\\Temp\\\t.bin 0x0 4;", Some [])].
Proof.
  cbv zeta. split; [reflexivity|].
  destruct (staged_name_is_escaped_on_windows
              (windows_world "C:\Temp\t.bin" (exits 0 EmptyString EmptyString []))
              "dump_image {binary} 0x0 4;" None false (initial unconfigured) eq_refl)
    as (escaped & W1 & W2).
  cbv zeta in W1. destruct W1 as (_ & Wu & Wc).
  assert (E : escaped = "C:\\\Temp\\\t.bin").
  { symmetry. apply Wu.
    do 2 (apply tripled_other; [discriminate|]). apply tripled_backslash.
    do 4 (apply tripled_other; [discriminate|]). apply tripled_backslash.
    do 5 (apply tripled_other; [discriminate|]). apply tripled_end. }
  subst escaped. split; [exact Wc|].
  exact (W2 "dump_image C:\\\Temp\\\t.bin 0x0 4;" eq_refl).
Defined.

(** ** The three operations, step by step *)

Lemma flash_binary_unfold (env : Env) (address : Z) (binary : option (list byte))
    (s : State) :
  flash_binary env address binary s
  = match format (default "program {{binary}} verify {address:#x};"
                    (openocd_commands (self s) !! "program"))
            [("address", PyInt address)] with
    | inl e => (inl e, s)
    | inr command =>
        match _run_openocd_commands env command binary true s with
        | (inl e, s1) => (inl e, s1)
        | (inr _, s1) => (inr tt, s1)
        end
    end.
Proof.
  unfold flash_binary.
  bind_with (eq_refl : get_self s = (inr (self s), s)).
  destruct (format _ _) as [e|command]; [reflexivity|].
  bind_with (eq_refl : lift (inr command) s = (inr command, s)).
  unfold bind.
  now destruct (_run_openocd_commands env command binary true s) as [[e|r] s1].
Qed.

Lemma read_range_shape (env : Env) (address n : Z) (s : State) :
  exists f : option (list byte) -> list byte,
    read_range env address n s
    = match format (default "dump_image {{binary}} {address:#x} {length};"
                      (openocd_commands (self s) !! "read"))
              [("address", PyInt address); ("length", PyInt n)] with
      | inl e => (inl e, s)
      | inr command =>
          match _run_openocd_commands env command None false s with
          | (inl e, s1) => (inl e, s1)
          | (inr result, s1) => (inr (f result), s1)
          end
      end.
Proof.
  eexists. unfold read_range.
  bind_with (eq_refl : get_self s = (inr (self s), s)).
  destruct (format _ _) as [e|command]; [reflexivity|].
  bind_with (eq_refl : lift (inr command) s = (inr command, s)).
  unfold bind.
  destruct (_run_openocd_commands env command None false s) as [[e|result] s1];
    [reflexivity|].
  unfold ret. f_equal.
Qed.

Lemma erase_page_unfold (env : Env) (address : Z) (s : State) :
  let s0 :=
    if debug (self s)
    then add_printed ("Erasing page at address " +:+ hex_alt address) s else s in
  erase_page env address s
  = match format (default (fill_command address)
                    (openocd_commands (self s) !! "erase"))
            [("address", PyInt address)] with
    | inl e => (inl e, s0)
    | inr command =>
        match _run_openocd_commands env command None true s0 with
        | (inl e, s1) => (inl e, s1)
        | (inr _, s1) => (inr tt, s1)
        end
    end.
Proof.
  cbv zeta. unfold erase_page.
  bind_with (eq_refl : get_self s = (inr (self s), s)).
  set (s0 := if debug (self s)
             then add_printed ("Erasing page at address " +:+ hex_alt address) s
             else s).
  assert (E0 : (if debug (self s)
                then print ("Erasing page at address " +:+ hex_alt address)
                else ret tt) s = (inr tt, s0)).
  { subst s0. now destruct (debug (self s)). }
  bind_with E0. rewrite format_erase_default.
  bind_with (eq_refl : lift (inr (fill_command address)) s0
                       = (inr (fill_command address), s0)).
  destruct (format _ _) as [e|command]; [reflexivity|].
  bind_with (eq_refl : lift (inr command) s0 = (inr command, s0)).
  unfold bind.
  now destruct (_run_openocd_commands env command None true s0) as [[e|r] s1].
Qed.

Lemma one_run_at_most_refl (s : State) : one_run_at_most s s.
Proof. unfold one_run_at_most. auto. Qed.

Lemma one_run_at_most_printed (s0 s s' : State) :
  same_but_printed s s0 -> one_run_at_most s0 s' -> one_run_at_most s s'.
Proof.
  unfold same_but_printed, one_run_at_most.
  intros (a1 & _ & a3 & a4 & a5) (b1 & b2 & b3 & b4).
  rewrite a1, a5, a4, a3 in *. auto.
Qed.

Lemma run_one_at_most (env : Env) (commands : string) (binary : option (list byte))
    (write : bool) (s : State) :
  let out := _run_openocd_commands env commands binary write s in
  one_run_at_most s (snd out)
  /\ (forall r, fst out = inr r ->
      exists command staged,
        processes (snd out) = (processes s ++ [(command, staged)])%list).
Proof.
  cbv zeta.
  pose proof (run_keeps_staged_state env commands binary write s) as K.
  cbv zeta in K. destruct K as (Ks & _ & Kt & Ka).
  pose proof (run_trace env commands binary write s) as T. cbv zeta in T.
  assert (S1 : self (snd (stage env commands binary write s)) = self s
               /\ attribute_queries (snd (stage env commands binary write s))
                  = attribute_queries s
               /\ (temp_files (snd (stage env commands binary write s)) = temp_files s
                   \/ exists name delete,
                        temp_files (snd (stage env commands binary write s))
                        = (temp_files s ++ [(name, delete)])%list)).
  { destruct (stages binary write) eqn:E.
    - pose proof (stage_file_state env commands binary write s E) as H.
      cbv zeta in H. rewrite H. cbn.
      destruct (String.eqb (platform_system env) "Windows"); cbn;
        repeat split; right; eauto.
    - unfold stages in E. apply orb_false_iff in E as [E1 E2].
      apply negb_false_iff in E2. subst write.
      rewrite (stage_nothing _ _ _ _ E1). cbn. auto. }
  destruct S1 as (S1 & S2 & S3).
  split.
  - unfold one_run_at_most. rewrite Ks, Kt, Ka. repeat split; auto.
    destruct T as [[T _] | (c & st & _ & _ & _ & _ & _ & T)]; [now left|].
    right. eauto.
  - intros r Hr.
    destruct T as [[_ [e He]] | (c & st & _ & _ & _ & _ & _ & T)]; [congruence|].
    eauto.
Qed.

(** X5.  Each of [flash_binary], [read_range] and [erase_page] leaves
    [self] as it was, queries no attributes, creates at most one temporary
    file and runs at most one child process: there is no retry.  When it
    returns, it has run exactly one. *)
Theorem operations_run_one_process_at_most (env : Env) (address n : Z)
    (binary : option (list byte)) (s : State) :
  (let out := flash_binary env address binary s in
   one_run_at_most s (snd out)
   /\ (fst out = inr tt ->
       exists command staged,
         processes (snd out) = (processes s ++ [(command, staged)])%list))
  /\ (let out := read_range env address n s in
      one_run_at_most s (snd out)
      /\ (forall r, fst out = inr r ->
          exists command staged,
            processes (snd out) = (processes s ++ [(command, staged)])%list))
  /\ (let out := erase_page env address s in
      one_run_at_most s (snd out)
      /\ (fst out = inr tt ->
          exists command staged,
            processes (snd out) = (processes s ++ [(command, staged)])%list)).
Proof.
  cbv zeta. split; [|split].
  - rewrite flash_binary_unfold.
    destruct (format _ _) as [e|command];
      [split; [apply one_run_at_most_refl | discriminate]|].
    pose proof (run_one_at_most env command binary true s) as R. cbv zeta in R.
    destruct (_run_openocd_commands env command binary true s) as [[e|r] s1];
      cbn in *; destruct R as [R1 R2]; split; auto; [discriminate | eauto].
  - destruct (read_range_shape env address n s) as [f ->].
    destruct (format _ _) as [e|command];
      [split; [apply one_run_at_most_refl | discriminate]|].
    pose proof (run_one_at_most env command None false s) as R. cbv zeta in R.
    destruct (_run_openocd_commands env command None false s) as [[e|r] s1];
      cbn in *; destruct R as [R1 R2]; split; auto; [discriminate | eauto].
  - pose proof (erase_page_unfold env address s) as E. cbv zeta in E. rewrite E.
    set (s0 := if debug (self s) then _ else s).
    assert (F : same_but_printed s s0).
    { subst s0. destruct (debug (self s));
        [apply add_printed_frame | apply same_but_printed_refl]. }
    destruct (format _ _) as [e|command].
    { split; [|discriminate].
      apply (one_run_at_most_printed s0); [exact F | apply one_run_at_most_refl]. }
    pose proof (run_one_at_most env command None true s0) as R. cbv zeta in R.
    destruct F as (_ & _ & _ & Fp & _).
    destruct (_run_openocd_commands env command None true s0) as [[e|r] s1];
      cbn in *; destruct R as [R1 R2]; split;
      try (apply (one_run_at_most_printed s0); [|exact R1];
           subst s0; destruct (debug (self s));
           [apply add_printed_frame | apply same_but_printed_refl]);
      [discriminate|].
    intros _. destruct (R2 r eq_refl) as (c & st & H). rewrite Fp in H. eauto.
Qed.







(** ** Writing a buffer *)

Lemma format_program_staged (address : Z) (name : string) :
  format ("program {binary} verify " +:+ hex_alt address +:+ ";")
    [("binary", PyStr name)]
  = inr ("program " +:+ name +:+ " verify " +:+ hex_alt address +:+ ";").
Proof.
  unfold format.
  change ("program {binary} verify " +:+ hex_alt address +:+ ";")
    with ("program " +:+ "{binary}" +:+ (" verify " +:+ hex_alt address +:+ ";")).
  rewrite (format_from_plain _ "program " _ eq_refl), format_from_binary.
  rewrite format_from_plain_all.
  - reflexivity.
  - now rewrite !all_chars_append, plain_hex_alt.
Qed.

(** X1.  With the default [program] command, [flash_binary] of a buffer
    that is not empty creates one temporary file, puts the file's name where
    the placeholder was, runs one child process on the command
    [program <name> verify <address in hexadecimal>;] with the buffer as the
    file's contents, and returns nothing when the process exits cleanly. *)
Theorem flash_binary_programs_the_staged_file (env : Env) (address : Z)
    (b : byte) (bs : list byte) (s : State) :
  openocd_commands (self s) !! "program" = None ->
  let out := flash_binary env address (Some (b :: bs)) s in
  let command :=
    command_line_of (self s)
      ("program " +:+ staged_name env s +:+ " verify " +:+ hex_alt address +:+ ";") in
  temp_files (snd out)
  = (temp_files s
     ++ [(temp_name env (length (temp_files s)), delete_flag env (self s))])%list
  /\ processes (snd out) = (processes s ++ [(command, Some (b :: bs))])%list
  /\ (clean_exit (self s) (subprocess_run env command (Some (b :: bs))) ->
      fst out = inr tt).
Proof.
  intros Hnone. cbv zeta.
  rewrite flash_binary_unfold, Hnone. cbn [default].
  rewrite format_program_default.
  set (command1 := "program {binary} verify " +:+ hex_alt address +:+ ";").
  pose proof (run_files env command1 (Some (b :: bs)) true s) as N.
  cbv zeta in N. destruct N as [N _]. destruct (N eq_refl) as [Nt _].
  pose proof (run_with_file env command1 (Some (b :: bs)) true s _ eq_refl
                (format_program_staged address (staged_name env s))) as R.
  cbv zeta in R. cbn [default] in R. destruct R as [Rp Rc].
  destruct (_run_openocd_commands env command1 (Some (b :: bs)) true s)
    as [[e|r] s1]; cbn [fst snd] in *.
  - repeat split; [exact Nt | exact Rp |].
    intros Hclean. specialize (Rc Hclean). discriminate.
  - repeat split; [exact Nt | exact Rp].
Qed.

Lemma flash_binary_programs_the_staged_file_witness :
  let env := world (exits 0 EmptyString EmptyString []) (inr []) in
  let out := flash_binary env 196608 (Some [x01; x02]%byte) (initial unconfigured) in
  openocd_commands unconfigured !! "program" = None
  /\ fst out = inr tt
  /\ temp_files (snd out) = [("/tmp/tmp0.bin", true)]
  /\ processes (snd out)
     = [(command_line EmptyString EmptyString "init; reset init; halt;"
           "program /tmp/tmp0.bin verify 0x30000;" EmptyString,
         Some [x01; x02]%byte)].
Proof.
  cbv zeta.
  pose proof (flash_binary_programs_the_staged_file
                (world (exits 0 EmptyString EmptyString []) (inr []))
                196608 x01 [x02]%byte (initial unconfigured) eq_refl) as W.
  cbv zeta in W. destruct W as (W1 & W2 & W3).
  split; [reflexivity|]. split; [|split].
  - apply W3. eexists. repeat split; reflexivity.
  - exact W1.
  - exact W2.
Defined.

(** ** The remaining clauses of the command line *)

(** X4.  In the command line that is built: the suffix is
    [soft_reset_halt; resume;] with [resume] among the options and empty
    without; the preamble is [init; reset init; halt;] with neither
    [noreset] nor [nocmdprefix]; the prefix is empty with no prefix
    configured and no [workareazero]; and a probe-tool board name that is a
    string, the empty one too, gives the clause
    [source [find board/<name>];].  So an object with no options and no
    prefix runs the operation command between the source clause and [exit]
    after a full reset. *)
Theorem suffix_and_default_clauses (o : OpenOCD) (cmd : string) :
  (In "resume" (openocd_options o) ->
   openocd_command o cmd
   = inr (command_line (py_str (prefix_clause o)) (source_text o)
            (cmd_prefix_clause o) cmd "soft_reset_halt; resume;"))
  /\ (~ In "resume" (openocd_options o) ->
      openocd_command o cmd
      = inr (command_line (py_str (prefix_clause o)) (source_text o)
               (cmd_prefix_clause o) cmd EmptyString))
  /\ (~ In "noreset" (openocd_options o) -> ~ In "nocmdprefix" (openocd_options o) ->
      openocd_command o cmd
      = inr (command_line (py_str (prefix_clause o)) (source_text o)
               "init; reset init; halt;" cmd (cmd_suffix_clause o)))
  /\ (forall name : string,
        openocd_board o = PyStr name ->
        openocd_command o cmd
        = inr (command_line (py_str (prefix_clause o))
                 ("source [find board/" +:+ name +:+ "];")
                 (cmd_prefix_clause o) cmd (cmd_suffix_clause o)))
  /\ (forall name : string,
        openocd_options o = [] -> openocd_prefix o = PyNone ->
        openocd_board o = PyStr name ->
        openocd_command o cmd
        = inr (command_line EmptyString ("source [find board/" +:+ name +:+ "];")
                 "init; reset init; halt;" cmd EmptyString)).
Proof.
  rewrite openocd_command_eq. unfold command_line_of.
  split; [|split; [|split; [|split]]].
  - intros Hin. apply in_list_iff in Hin. unfold cmd_suffix_clause. now rewrite Hin.
  - intros Hout. apply in_list_false in Hout. unfold cmd_suffix_clause.
    now rewrite Hout.
  - intros H1 H2. apply in_list_false in H1, H2. unfold cmd_prefix_clause.
    now rewrite H1, H2.
  - intros name Hb. unfold source_text. now rewrite Hb.
  - intros name Ho Hp Hb.
    unfold prefix_clause, source_text, cmd_prefix_clause, cmd_suffix_clause.
    now rewrite Ho, Hp, Hb.
Qed.

Lemma suffix_and_default_clauses_witness :
  openocd_command debugging "halt;"
  = inr (command_line EmptyString "source [find board/hail.cfg];"
           "init; reset init; halt;" "halt;" "soft_reset_halt; resume;").
Proof.
  refine (proj1 (suffix_and_default_clauses debugging "halt;") _).
  left; reflexivity.
Defined.

(** ** What is printed *)

Lemma run_ran (env : Env) (commands : string) (binary : option (list byte))
    (write : bool) (s : State) (command : string) (staged : option (list byte)) :
  let out := _run_openocd_commands env commands binary write s in
  processes (snd out) = (processes s ++ [(command, staged)])%list ->
  let s2 :=
    if debug (self s)
    then add_printed ("Running " +:+ dquote +:+ command +:+ dquote +:+ ".")
           (snd (stage env commands binary write s))
    else snd (stage env commands binary write s) in
  out = check_process (self s) (subprocess_run env command staged) write
          (add_process command staged s2).
Proof.
  cbv zeta. rewrite run_unfold.
  destruct (stage_frame env commands binary write s) as [_ Hp].
  destruct (stage env commands binary write s) as [[e|[c st]] s1]; cbn in *.
  - intros H. rewrite Hp in H. apply (f_equal length) in H.
    rewrite length_app in H. cbn in H. lia.
  - match goal with
    | |- context [check_process ?o ?r ?w ?st] =>
        destruct (check_process_frame o r w st) as (_ & _ & _ & -> & _)
    end.
    intros H.
    assert (H' : (processes s ++ [(command_line_of (self s) c, st)])%list
                 = (processes s ++ [(command, staged)])%list).
    { rewrite <- H. destruct (debug (self s)); cbn; now rewrite Hp. }
    apply app_inj_tail in H' as [_ H']. injection H' as <- <-. reflexivity.
Qed.

Lemma check_process_printed_failure (o : OpenOCD) (run : ProcessRun) (write : bool)
    (s : State) (p : CompletedProcess) :
  outcome run = inr p -> returncode p <> 0 ->
  utf8_valid (stdout p) = true -> utf8_valid (stderr p) = true ->
  printed (snd (check_process o run write s))
  = (printed s
     ++ ["ERROR: openocd returned with error code " +:+ dec (returncode p);
         text_of (stdout p) +:+ text_of (stderr p)])%list.
Proof.
  intros Hrun Hrc Hout Herr. unfold check_process, bind, lift. rewrite Hrun. cbn.
  apply Z.eqb_neq in Hrc. rewrite Hrc. cbn.
  rewrite (print_output_text _ _ Hout Herr).
  destruct (contains _ _); cbn; now rewrite <- app_assoc.
Qed.

(** X7.  When the child process ends with a status other than 0,
    [_run_openocd_commands] prints the status and then the captured output,
    stdout followed by stderr, whether debug mode is on or not; debug mode
    adds the line with the command before them. *)
Theorem failure_is_printed_in_every_mode (env : Env) (commands : string)
    (binary : option (list byte)) (write : bool) (s : State)
    (command : string) (staged : option (list byte)) (p : CompletedProcess) :
  let out := _run_openocd_commands env commands binary write s in
  processes (snd out) = (processes s ++ [(command, staged)])%list ->
  outcome (subprocess_run env command staged) = inr p ->
  returncode p <> 0 ->
  utf8_valid (stdout p) = true -> utf8_valid (stderr p) = true ->
  printed (snd out)
  = (printed s
     ++ (if debug (self s)
         then ["Running " +:+ dquote +:+ command +:+ dquote +:+ "."] else [])
     ++ ["ERROR: openocd returned with error code " +:+ dec (returncode p);
         text_of (stdout p) +:+ text_of (stderr p)])%list.
Proof.
  intros out Htrace Hrun Hrc Hout Herr. subst out.
  pose proof (run_ran env commands binary write s command staged) as R.
  cbv zeta in R. rewrite (R Htrace).
  rewrite (check_process_printed_failure _ _ _ _ _ Hrun Hrc Hout Herr).
  pose proof (stage_prints_nothing env commands binary write s) as Sp.
  destruct (debug (self s)); cbn [printed add_process add_printed]; rewrite Sp;
    [now rewrite <- app_assoc | reflexivity].
Qed.

Lemma failure_is_printed_in_every_mode_witness :
  let env := world (exits 3 "Open On-Chip Debugger" " failed" []) (inr []) in
  let out :=
    _run_openocd_commands env "reset halt;" None true (initial unconfigured) in
  processes (snd out) = [(command_line_of unconfigured "reset halt;", None)]
  /\ printed (snd out)
     = ["ERROR: openocd returned with error code 3"; "Open On-Chip Debugger failed"].
Proof.
  cbv zeta. split; [vm_compute; reflexivity|].
  apply (failure_is_printed_in_every_mode
           (world (exits 3 "Open On-Chip Debugger" " failed" []) (inr []))
           "reset halt;" None true (initial unconfigured)
           (command_line_of unconfigured "reset halt;") None
           {| returncode := 3;
              stdout := list_byte_of_string "Open On-Chip Debugger";
              stderr := list_byte_of_string " failed" |});
    first [ discriminate | vm_compute; reflexivity ].
Defined.

(** After status 0, whatever the streams hold: nothing is printed outside
    debug mode, and in debug mode the output is printed if both streams
    decode. *)
Lemma check_process_printed_zero (o : OpenOCD) (run : ProcessRun) (write : bool)
    (s : State) (p : CompletedProcess) :
  outcome run = inr p -> returncode p = 0 ->
  printed (snd (check_process o run write s))
  = (printed s
     ++ if debug o && (utf8_valid (stdout p) && utf8_valid (stderr p))
        then [text_of (stdout p) +:+ text_of (stderr p)] else [])%list.
Proof.
  intros Hrun Hrc. unfold check_process. rewrite Hrun. unfold lift at 1.
  rewrite (bind_value _ _ s s p eq_refl). cbv beta.
  rewrite Hrc. cbn [Z.eqb negb].
  destruct (debug o); cbn [andb].
  - destruct (utf8_valid (stdout p) && utf8_valid (stderr p)) eqn:V.
    + apply andb_true_iff in V as [Vo Ve]. unfold bind.
      rewrite (print_output_text _ _ Vo Ve). cbn.
      unfold decode_utf8. rewrite Vo. cbn.
      destruct (contains _ _); [reflexivity|]. now destruct write.
    + unfold bind. rewrite (print_output_invalid p s V). cbn.
      now rewrite app_nil_r.
  - unfold bind, ret, lift, decode_utf8. rewrite app_nil_r.
    destruct (utf8_valid (stdout p)); cbn; [|reflexivity].
    destruct (contains _ _); [reflexivity|]. now destruct write.
Qed.

(** X8.  When the child process ends with status 0, whatever its streams
    hold, [_run_openocd_commands] prints nothing unless debug mode is on.
    In debug mode it prints the command before the run, and after it the
    captured output, stdout followed by stderr, when both streams decode as
    UTF-8; when one does not, the command is all it prints. *)
Theorem success_is_quiet_without_debug (env : Env) (commands : string)
    (binary : option (list byte)) (write : bool) (s : State)
    (command : string) (staged : option (list byte)) (p : CompletedProcess) :
  let out := _run_openocd_commands env commands binary write s in
  processes (snd out) = (processes s ++ [(command, staged)])%list ->
  outcome (subprocess_run env command staged) = inr p ->
  returncode p = 0 ->
  printed (snd out)
  = (printed s
     ++ if debug (self s)
        then ("Running " +:+ dquote +:+ command +:+ dquote +:+ ".")
             :: (if utf8_valid (stdout p) && utf8_valid (stderr p)
                 then [text_of (stdout p) +:+ text_of (stderr p)] else [])
        else [])%list.
Proof.
  intros out Htrace Hrun Hrc. subst out.
  pose proof (run_ran env commands binary write s command staged) as R.
  cbv zeta in R. rewrite (R Htrace).
  rewrite (check_process_printed_zero _ _ _ _ _ Hrun Hrc).
  pose proof (stage_prints_nothing env commands binary write s) as Sp.
  destruct (debug (self s)); cbn [printed add_process add_printed andb]; rewrite Sp;
    [now rewrite <- app_assoc | reflexivity].
Qed.

Lemma success_is_quiet_without_debug_witness :
  let env := world (exits 0 "Open On-Chip Debugger" EmptyString []) (inr []) in
  let quiet :=
    _run_openocd_commands env "reset halt;" None true (initial unconfigured) in
  let loud :=
    _run_openocd_commands env "reset halt;" None true (initial debugging) in
  processes (snd quiet) = [(command_line_of unconfigured "reset halt;", None)]
  /\ printed (snd quiet) = []
  /\ printed (snd loud)
     = ["Running " +:+ dquote +:+ command_line_of debugging "reset halt;"
        +:+ dquote +:+ "."; "Open On-Chip Debugger"].
Proof.
  cbv zeta. split; [vm_compute; reflexivity|]. split.
  - apply (success_is_quiet_without_debug
             (world (exits 0 "Open On-Chip Debugger" EmptyString []) (inr []))
             "reset halt;" None true (initial unconfigured)
             (command_line_of unconfigured "reset halt;") None
             {| returncode := 0;
                stdout := list_byte_of_string "Open On-Chip Debugger";
                stderr := [] |});
      first [ discriminate | vm_compute; reflexivity ].
  - apply (success_is_quiet_without_debug
             (world (exits 0 "Open On-Chip Debugger" EmptyString []) (inr []))
             "reset halt;" None true (initial debugging)
             (command_line_of debugging "reset halt;") None
             {| returncode := 0;
                stdout := list_byte_of_string "Open On-Chip Debugger";
                stderr := [] |});
      first [ discriminate | vm_compute; reflexivity ].
Defined.

(** ** The scan, field by field *)

Lemma board_step (o : OpenOCD) (attribute : option Attribute) :
  board (scan_attribute o attribute)
  = if has_key attribute "board" && py_eq (board o) PyNone
    then value_of attribute else board o.
Proof.
  unfold scan_attribute.
  destruct (has_key attribute "board" && py_eq (board o) PyNone); cbn;
    destruct (has_key attribute "arch" && _); cbn;
    destruct (has_key attribute "openocd"); cbn;
    destruct (has_key attribute "pagesize" && _); reflexivity.
Qed.

Lemma arch_step (o : OpenOCD) (attribute : option Attribute) :
  arch (scan_attribute o attribute)
  = if has_key attribute "arch" && py_eq (arch o) PyNone
    then value_of attribute else arch o.
Proof.
  unfold scan_attribute.
  destruct (has_key attribute "board" && py_eq (board o) PyNone); cbn;
    destruct (has_key attribute "arch" && _); cbn;
    destruct (has_key attribute "openocd"); cbn;
    destruct (has_key attribute "pagesize" && _); reflexivity.
Qed.

Lemma openocd_board_step (o : OpenOCD) (attribute : option Attribute) :
  openocd_board (scan_attribute o attribute)
  = if has_key attribute "openocd" then value_of attribute else openocd_board o.
Proof.
  unfold scan_attribute.
  destruct (has_key attribute "board" && py_eq (board o) PyNone); cbn;
    destruct (has_key attribute "arch" && _); cbn;
    destruct (has_key attribute "openocd"); cbn;
    destruct (has_key attribute "pagesize" && _); reflexivity.
Qed.

Lemma scan_attributes_cons (a : option Attribute) (rest : list (option Attribute))
    (o : OpenOCD) :
  scan_attributes (a :: rest) o = scan_attributes rest (scan_attribute o a).
Proof. reflexivity. Qed.

Lemma set_board_keeps (o : OpenOCD) (attributes : list (option Attribute)) :
  board o <> PyNone -> board (scan_attributes attributes o) = board o.
Proof.
  revert o. induction attributes as [|a rest IH]; intros o Hset; [reflexivity|].
  rewrite scan_attributes_cons.
  assert (E : board (scan_attribute o a) = board o).
  { rewrite board_step. destruct (py_eq (board o) PyNone) eqn:P.
    - apply py_eq_iff in P. contradiction.
    - now rewrite andb_false_r. }
  rewrite IH; rewrite E; auto.
Qed.

Lemma set_arch_keeps (o : OpenOCD) (attributes : list (option Attribute)) :
  arch o <> PyNone -> arch (scan_attributes attributes o) = arch o.
Proof.
  revert o. induction attributes as [|a rest IH]; intros o Hset; [reflexivity|].
  rewrite scan_attributes_cons.
  assert (E : arch (scan_attribute o a) = arch o).
  { rewrite arch_step. destruct (py_eq (arch o) PyNone) eqn:P.
    - apply py_eq_iff in P. contradiction.
    - now rewrite andb_false_r. }
  rewrite IH; rewrite E; auto.
Qed.

Lemma no_board_record (o : OpenOCD) (attributes : list (option Attribute)) :
  Forall (fun a => has_key a "board" = false) attributes ->
  board (scan_attributes attributes o) = board o.
Proof.
  revert o. induction attributes as [|a rest IH]; intros o H; [reflexivity|].
  inversion H as [|? ? Ha Hrest]; subst.
  rewrite scan_attributes_cons, (IH _ Hrest), board_step, Ha. reflexivity.
Qed.

Lemma no_arch_record (o : OpenOCD) (attributes : list (option Attribute)) :
  Forall (fun a => has_key a "arch" = false) attributes ->
  arch (scan_attributes attributes o) = arch o.
Proof.
  revert o. induction attributes as [|a rest IH]; intros o H; [reflexivity|].
  inversion H as [|? ? Ha Hrest]; subst.
  rewrite scan_attributes_cons, (IH _ Hrest), arch_step, Ha. reflexivity.
Qed.

Lemma no_openocd_record (o : OpenOCD) (attributes : list (option Attribute)) :
  Forall (fun a => has_key a "openocd" = false) attributes ->
  openocd_board (scan_attributes attributes o) = openocd_board o.
Proof.
  revert o. induction attributes as [|a rest IH]; intros o H; [reflexivity|].
  inversion H as [|? ? Ha Hrest]; subst.
  rewrite scan_attributes_cons, (IH _ Hrest), openocd_board_step, Ha. reflexivity.
Qed.

Lemma board_stays_none (o : OpenOCD) (attributes : list (option Attribute)) :
  board o = PyNone ->
  Forall (fun a => has_key a "board" = false \/ value_of a = PyNone) attributes ->
  board (scan_attributes attributes o) = PyNone.
Proof.
  revert o. induction attributes as [|a rest IH]; intros o Hnone H; [exact Hnone|].
  inversion H as [|? ? Ha Hrest]; subst.
  rewrite scan_attributes_cons. apply IH; [|exact Hrest].
  rewrite board_step, Hnone.
  destruct Ha as [Ha | Ha]; [now rewrite Ha|].
  rewrite Ha. now destruct (has_key a "board" && _).
Qed.

Lemma arch_stays_none (o : OpenOCD) (attributes : list (option Attribute)) :
  arch o = PyNone ->
  Forall (fun a => has_key a "arch" = false \/ value_of a = PyNone) attributes ->
  arch (scan_attributes attributes o) = PyNone.
Proof.
  revert o. induction attributes as [|a rest IH]; intros o Hnone H; [exact Hnone|].
  inversion H as [|? ? Ha Hrest]; subst.
  rewrite scan_attributes_cons. apply IH; [|exact Hrest].
  rewrite arch_step, Hnone.
  destruct Ha as [Ha | Ha]; [now rewrite Ha|].
  rewrite Ha. now destruct (has_key a "arch" && _).
Qed.

(** X9.  In the scan, a board identity and an architecture that are set
    are kept through every record, so what the caller configured wins over
    the device; and starting from [None], the field takes the value of the
    first record of its key whose value is not [None], earlier records of
    the key with the value [None] changing nothing, and keeps it against
    all later records. *)
Theorem first_board_and_arch_win :
  (forall (attributes : list (option Attribute)) (o : OpenOCD),
     board o <> PyNone -> board (scan_attributes attributes o) = board o)
  /\ (forall (attributes : list (option Attribute)) (o : OpenOCD),
        arch o <> PyNone -> arch (scan_attributes attributes o) = arch o)
  /\ (forall (before after : list (option Attribute)) (v : pyval) (o : OpenOCD),
        board o = PyNone -> v <> PyNone ->
        Forall (fun a => has_key a "board" = false \/ value_of a = PyNone) before ->
        board (scan_attributes (before ++ record "board" v :: after) o) = v)
  /\ (forall (before after : list (option Attribute)) (v : pyval) (o : OpenOCD),
        arch o = PyNone -> v <> PyNone ->
        Forall (fun a => has_key a "arch" = false \/ value_of a = PyNone) before ->
        arch (scan_attributes (before ++ record "arch" v :: after) o) = v).
Proof.
  split; [|split; [|split]].
  - intros attributes o. apply set_board_keeps.
  - intros attributes o. apply set_arch_keeps.
  - intros before after v o Hnone Hv Hbefore.
    rewrite scan_attributes_app, scan_attributes_cons.
    assert (E : board (scan_attribute (scan_attributes before o) (record "board" v)) = v).
    { rewrite board_step, (board_stays_none _ _ Hnone Hbefore). reflexivity. }
    rewrite set_board_keeps; rewrite E; auto.
  - intros before after v o Hnone Hv Hbefore.
    rewrite scan_attributes_app, scan_attributes_cons.
    assert (E : arch (scan_attribute (scan_attributes before o) (record "arch" v)) = v).
    { rewrite arch_step, (arch_stays_none _ _ Hnone Hbefore). reflexivity. }
    rewrite set_arch_keeps; rewrite E; auto.
Qed.

Lemma first_board_and_arch_win_witness :
  let attributes :=
    [ None; record "board" PyNone; record "board" (PyStr "imix");
      record "arch" (PyStr "cortex-m4"); record "board" (PyStr "hail") ] in
  board (scan_attributes attributes unconfigured) = PyStr "imix"
  /\ board (scan_attributes attributes hail_by_name) = PyStr "hail".
Proof.
  cbv zeta. destruct first_board_and_arch_win as (W1 & _ & W3 & _). split.
  - apply (W3 [None; record "board" PyNone]
              [record "arch" (PyStr "cortex-m4"); record "board" (PyStr "hail")]
              (PyStr "imix") unconfigured); [reflexivity | discriminate |].
    constructor; [left; reflexivity|].
    constructor; [right; reflexivity|]. constructor.
  - apply (W1 _ hail_by_name). discriminate.
Defined.

(** X10.  In the scan, the probe-tool board name takes the value of the
    last [openocd] record, also when the caller had configured one, and is
    left as it was when there is no such record. *)
Theorem last_openocd_record_wins :
  (forall (before after : list (option Attribute)) (v : pyval) (o : OpenOCD),
     Forall (fun a => has_key a "openocd" = false) after ->
     openocd_board (scan_attributes (before ++ record "openocd" v :: after) o) = v)
  /\ (forall (attributes : list (option Attribute)) (o : OpenOCD),
        Forall (fun a => has_key a "openocd" = false) attributes ->
        openocd_board (scan_attributes attributes o) = openocd_board o).
Proof.
  split.
  - intros before after v o Hafter.
    rewrite scan_attributes_app, scan_attributes_cons.
    rewrite (no_openocd_record _ _ Hafter), openocd_board_step. reflexivity.
  - intros attributes o. apply no_openocd_record.
Qed.

Lemma last_openocd_record_wins_witness :
  openocd_board
    (scan_attributes
       [ record "openocd" (PyStr "first.cfg"); record "openocd" (PyStr "last.cfg");
         record "arch" (PyStr "cortex-m4") ]
       debugging)
  = PyStr "last.cfg".
Proof.
  apply (proj1 last_openocd_record_wins [record "openocd" (PyStr "first.cfg")]
           [record "arch" (PyStr "cortex-m4")] (PyStr "last.cfg") debugging).
  repeat constructor.
Defined.

Lemma irrelevant_step (o : OpenOCD) (attribute : option Attribute) :
  relevant attribute = false -> scan_attribute o attribute = o.
Proof.
  unfold relevant. intros H.
  apply orb_false_iff in H as [H H4]. apply orb_false_iff in H as [H H3].
  apply orb_false_iff in H as [H1 H2].
  unfold scan_attribute. now rewrite H1, H2, H3, H4.
Qed.

Lemma scan_step_keeps_the_rest (o : OpenOCD) (attribute : option Attribute) :
  let o' := scan_attribute o attribute in
  debug o' = debug o /\ openocd_options o' = openocd_options o
  /\ openocd_prefix o' = openocd_prefix o
  /\ openocd_commands o' = openocd_commands o
  /\ KNOWN_BOARDS o' = KNOWN_BOARDS o.
Proof.
  cbv zeta. unfold scan_attribute.
  destruct (has_key attribute "board" && py_eq (board o) PyNone); cbn;
    destruct (has_key attribute "arch" && _); cbn;
    destruct (has_key attribute "openocd"); cbn;
    destruct (has_key attribute "pagesize" && _); now repeat split.
Qed.

(** X11.  The scan skips the empty slots and the records of other keys:
    without them it ends in the same object; and it changes nothing but the
    board identity, the architecture, the probe-tool board name and the
    page size. *)
Theorem scan_skips_what_it_does_not_know :
  (forall (attributes : list (option Attribute)) (o : OpenOCD),
     scan_attributes (filter (fun a => relevant a = true) attributes) o
     = scan_attributes attributes o)
  /\ (forall (attributes : list (option Attribute)) (o : OpenOCD),
        let o' := scan_attributes attributes o in
        debug o' = debug o /\ openocd_options o' = openocd_options o
        /\ openocd_prefix o' = openocd_prefix o
        /\ openocd_commands o' = openocd_commands o
        /\ KNOWN_BOARDS o' = KNOWN_BOARDS o).
Proof.
  split.
  - intros attributes. induction attributes as [|a rest IH]; intros o; [reflexivity|].
    rewrite scan_attributes_cons, filter_cons.
    destruct (decide (relevant a = true)) as [Hr|Hr].
    + rewrite scan_attributes_cons. apply IH.
    + apply not_true_is_false in Hr. rewrite (irrelevant_step _ _ Hr). apply IH.
  - intros attributes. induction attributes as [|a rest IH]; intros o; cbv zeta.
    + now repeat split.
    + rewrite scan_attributes_cons.
      specialize (IH (scan_attribute o a)). cbv zeta in IH.
      pose proof (scan_step_keeps_the_rest o a) as K. cbv zeta in K.
      destruct IH as (-> & -> & -> & -> & ->). exact K.
Qed.

(** ** Resolution, as a whole *)

(** X13.  Resolution from the catalog is stable: for a board identity that
    names a catalog entry with an architecture, a probe-tool board name and
    a positive page size, and a page size of [self] that is a number, a
    second call of [determine_current_board] returns at once and changes
    nothing, prints nothing and queries nothing. *)
Theorem catalog_resolution_is_stable (env : Env) (s : State) (name : string)
    (entry : BoardEntry) (z z0 : Z) :
  board (self s) = PyStr name -> name <> EmptyString ->
  KNOWN_BOARDS (self s) !! name = Some entry ->
  page_size (self s) = PyInt z0 ->
  truthy (entry_arch entry) = true -> truthy (entry_openocd entry) = true ->
  entry_page_size entry = PyInt z -> 0 < z ->
  let out := determine_current_board env s in
  fst out = inr tt
  /\ determine_current_board env (snd out) = (inr tt, snd out).
Proof.
  intros Hboard Hname Hentry Hpage Harch Hopenocd Hsize Hz. cbv zeta.
  assert (Hknown : known_board (self s) = Some entry).
  { unfold known_board. rewrite Hboard. cbn.
    apply String.eqb_neq in Hname. now rewrite Hname. }
  assert (Hb : truthy (board (self s)) = true).
  { rewrite Hboard. cbn. apply String.eqb_neq in Hname. now rewrite Hname. }
  rewrite (determine_current_board_unfold env s), Hknown.
  destruct (already_set (self s)) as [e|[|]] eqn:A.
  - unfold already_set in A. rewrite Hpage in A.
    destruct (_ && _) in A; discriminate.
  - split; [reflexivity|]. cbn [snd].
    now rewrite determine_current_board_unfold, A.
  - split; [reflexivity|]. cbn [snd].
    rewrite determine_current_board_unfold. cbn [self with_self add_printed].
    unfold already_set. cbn [board arch openocd_board page_size use_known_board].
    rewrite Hb, Harch, Hopenocd, Hsize. cbn.
    apply Z.ltb_lt in Hz. now rewrite Hz.
Qed.

Lemma catalog_resolution_is_stable_witness :
  let env := world (exits 0 EmptyString EmptyString []) (inr []) in
  let once := determine_current_board env (initial hail_by_name) in
  KNOWN_BOARDS hail_by_name !! "hail" = Some hail_entry
  /\ fst once = inr tt
  /\ determine_current_board env (snd once) = (inr tt, snd once).
Proof.
  cbv zeta.
  assert (L : KNOWN_BOARDS hail_by_name !! "hail" = Some hail_entry)
    by (vm_compute; reflexivity).
  split; [exact L|].
  apply (catalog_resolution_is_stable
           (world (exits 0 EmptyString EmptyString []) (inr []))
           (initial hail_by_name) "hail" hail_entry 512 0);
    first [ reflexivity | discriminate | exact L | lia ].
Defined.

(** After a scan that found no probe-tool board name, the four fields are
    not all set, and a second call resolves the board the scan named from
    the catalog, replacing what the scan had learned. *)
Remark second_resolution_may_use_the_catalog :
  let env := world (exits 0 EmptyString EmptyString []) (inr hail_attributes) in
  let once := determine_current_board env (initial unconfigured) in
  let twice := determine_current_board env (snd once) in
  fst once = inr tt
  /\ arch (self (snd once)) = PyStr "cortex-m0"
  /\ page_size (self (snd once)) = PyInt 256
  /\ fst twice = inr tt
  /\ arch (self (snd twice)) = PyStr "cortex-m4"
  /\ page_size (self (snd twice)) = PyInt 512.
Proof. cbv zeta. repeat split; vm_compute; reflexivity. Qed.

(** ** Errors of the runner, through the operations *)

Lemma check_process_verdict (o : OpenOCD) (run : ProcessRun) (write : bool)
    (s : State) (p : CompletedProcess) (e : exn) :
  outcome run = inr p ->
  utf8_valid (stdout p) = true -> utf8_valid (stderr p) = true ->
  verdict p = Some e ->
  fst (check_process o run write s) = inl e.
Proof.
  intros Hrun Hout Herr Hv. unfold verdict in Hv.
  destruct (returncode p =? 0)%Z eqn:Hrc; cbn in Hv.
  - apply Z.eqb_eq in Hrc.
    destruct (contains "Error: No J-Link device found." _) eqn:Hpat; [|discriminate].
    injection Hv as <-.
    now apply check_process_no_hardware with (p := p).
  - apply Z.eqb_neq in Hrc. injection Hv as <-.
    now apply check_process_failed.
Qed.

(** X14.  The operations recover from nothing: when [flash_binary],
    [read_range] or [erase_page] has run its child process and the process
    ended with a status other than 0, or with status 0 and a report of
    missing hardware, the operation raises the exception of
    [_run_openocd_commands] for that outcome; [read_range] returns no bytes
    then, whatever the staging file holds. *)
Theorem operations_raise_what_the_runner_raises (env : Env) (address n : Z)
    (binary : option (list byte)) (s : State) (command : string)
    (staged : option (list byte)) (p : CompletedProcess) (e : exn) :
  outcome (subprocess_run env command staged) = inr p ->
  utf8_valid (stdout p) = true -> utf8_valid (stderr p) = true ->
  verdict p = Some e ->
  (let out := flash_binary env address binary s in
   processes (snd out) = (processes s ++ [(command, staged)])%list ->
   fst out = inl e)
  /\ (let out := read_range env address n s in
      processes (snd out) = (processes s ++ [(command, staged)])%list ->
      fst out = inl e)
  /\ (let out := erase_page env address s in
      processes (snd out) = (processes s ++ [(command, staged)])%list ->
      fst out = inl e).
Proof.
  intros Hrun Hout Herr Hv. cbv zeta.
  assert (grow : forall (l : list (string * option (list byte))) x, l <> (l ++ [x])%list).
  { intros l x H. apply (f_equal length) in H. rewrite length_app in H.
    cbn in H. lia. }
  assert (R : forall commands b w s0 o,
             self s0 = o ->
             processes (snd (_run_openocd_commands env commands b w s0))
             = (processes s0 ++ [(command, staged)])%list ->
             fst (_run_openocd_commands env commands b w s0) = inl e).
  { intros commands b w s0 o Ho Ht.
    pose proof (run_ran env commands b w s0 command staged) as Q. cbv zeta in Q.
    rewrite (Q Ht). now apply check_process_verdict with (p := p). }
  split; [|split].
  - rewrite flash_binary_unfold.
    destruct (format _ _) as [e'|c]; [intros H; now apply grow in H|].
    specialize (R c binary true s (self s) eq_refl).
    destruct (_run_openocd_commands env c binary true s) as [[e'|r] s1];
      cbn in *; intros H; specialize (R H); congruence.
  - destruct (read_range_shape env address n s) as [f ->].
    destruct (format _ _) as [e'|c]; [intros H; now apply grow in H|].
    specialize (R c None false s (self s) eq_refl).
    destruct (_run_openocd_commands env c None false s) as [[e'|r] s1];
      cbn in *; intros H; specialize (R H); congruence.
  - pose proof (erase_page_unfold env address s) as E. cbv zeta in E. rewrite E.
    set (s0 := if debug (self s) then _ else s).
    assert (Fp : processes s0 = processes s).
    { subst s0. now destruct (debug (self s)). }
    destruct (format _ _) as [e'|c].
    { cbn. rewrite Fp. intros H. now apply grow in H. }
    specialize (R c None true s0 (self s0) eq_refl).
    destruct (_run_openocd_commands env c None true s0) as [[e'|r] s1];
      cbn in *; intros H; rewrite <- Fp in H; specialize (R H); congruence.
Qed.

Lemma operations_raise_what_the_runner_raises_witness :
  let run :=
    exits 0 "Error: No J-Link device found." EmptyString [x01; x02; x03]%byte in
  let env := world run (inr []) in
  let out := read_range env 196608 2 (initial unconfigured) in
  processes (snd out)
  = [(command_line_of unconfigured "dump_image /tmp/tmp0.bin 0x30000 2;", Some [])]
  /\ fst out = inl hardware_not_connected.
Proof.
  cbv zeta. split; [vm_compute; reflexivity|].
  refine (proj1 (proj2 (operations_raise_what_the_runner_raises
                          (world (exits 0 "Error: No J-Link device found." EmptyString
                                    [x01; x02; x03]%byte) (inr []))
                          196608 2 None (initial unconfigured)
                          (command_line_of unconfigured
                             "dump_image /tmp/tmp0.bin 0x30000 2;")
                          (Some [])
                          {| returncode := 0;
                             stdout := list_byte_of_string
                                         "Error: No J-Link device found.";
                             stderr := [] |}
                          hardware_not_connected _ _ _ _)) _);
    vm_compute; reflexivity.
Defined.
